(** * ConjecTuring: bounded conjecture checking

    A shallow embedding of [conjecturing.py]: the four search functions
    [find_counterexample], [count_counterexamples], [smallest_counterexample]
    and [greatest_counterexample], with the generator they pull from, the
    exceptions they let through and the console / progress-bar output they
    produce, followed by the properties of the searches. *)

From Stdlib Require Import ZArith List Bool Ascii String Lia Sorted.
Import ListNotations.
Local Open Scope Z_scope.

(* ================================================================== *)
(** ** Python values, exceptions and outcomes *)

(** An [object] of the source: either [None] or some other value. *)
Inductive pyobj (A : Type) : Type :=
| PyNone
| PyObj (a : A).
Arguments PyNone {A}.
Arguments PyObj {A} a.

(** [x is not None] *)
Definition is_not_None {A : Type} (x : pyobj A) : bool :=
  match x with
  | PyNone => false
  | PyObj _ => true
  end.

(** The exceptions that the module can let through. *)
Inductive exn : Type :=
| StopIteration
| ValueError
| OverflowError.

Inductive outcome (R : Type) : Type :=
| Return (r : R)
| Raise (e : exn).
Arguments Return {R} r.
Arguments Raise {R} e.

(* ================================================================== *)
(** ** The builtin [int] applied to a string of ASCII characters (base 10)

    Surrounding white space (space, and the characters 9 to 13) is dropped,
    one sign is allowed, and the digits may be grouped by single
    underscores.  Anything else is a [ValueError].  The two strings that
    the module passes, "inf" and "-inf", are ASCII; white space and digits
    outside ASCII are not part of this model. *)

Definition is_space (c : ascii) : bool :=
  let k := nat_of_ascii c in
  (Nat.eqb k 32 || (Nat.leb 9 k && Nat.leb k 13))%bool.

Fixpoint lstrip (l : list ascii) : list ascii :=
  match l with
  | c :: t => if is_space c then lstrip t else l
  | [] => []
  end.

Definition strip (l : list ascii) : list ascii :=
  rev (lstrip (rev (lstrip l))).

Definition digit_val (c : ascii) : option Z :=
  let k := nat_of_ascii c in
  if (Nat.leb 48 k && Nat.leb k 57)%bool then Some (Z.of_nat (k - 48)) else None.

Fixpoint digits_value (l : list ascii) (acc : Z) (after_digit : bool) : option Z :=
  match l with
  | [] => if after_digit then Some acc else None
  | c :: t =>
      match digit_val c with
      | Some d => digits_value t (10 * acc + d) true
      | None =>
          if (Ascii.eqb c "_"%char && after_digit)%bool
          then digits_value t acc false
          else None
      end
  end.

Definition int_of_str (s : string) : outcome Z :=
  let body := strip (list_ascii_of_string s) in
  let parsed :=
    match body with
    | "-"%char :: t => option_map Z.opp (digits_value t 0 false)
    | "+"%char :: t => digits_value t 0 false
    | _ => digits_value body 0 false
    end in
  match parsed with
  | Some z => Return z
  | None => Raise ValueError
  end.

(* ================================================================== *)
(** ** The length of a range

    [len(range(n))] is the number of elements of the range when it fits a
    C [ssize_t], and an [OverflowError] otherwise; [sys.maxsize] is
    [2^63 - 1] on the 64-bit builds this model is about. *)

Definition PY_SSIZE_T_MAX : Z := 9223372036854775807.

(* ================================================================== *)
(** ** The batch plan *)

Definition UPDATE_RATIO : Z := 100.

(** [range(k)]: empty when [k <= 0]. *)
Definition range (k : Z) : list Z :=
  map Z.of_nat (seq 0 (Z.to_nat k)).

(** [batch_length = n // UPDATE_RATIO], [remaining_length = n % UPDATE_RATIO]
    and the two comprehensions, the same in the four functions. *)
Definition listOfBatches (n : Z) : list Z :=
  let batch_length := n / UPDATE_RATIO in
  let remaining_length := n mod UPDATE_RATIO in
  map (fun _ => batch_length + 1) (range remaining_length)
  ++ map (fun _ => batch_length) (range (UPDATE_RATIO - remaining_length)).

(** Sum of a list of integers. *)
Definition sum (l : list Z) : Z := fold_right Z.add 0 l.

(** Number of [next] calls that a loop [for i in range(b)] over every batch
    [b] of the plan asks for when no batch ends early. *)
Definition planned_pulls (bs : list Z) : nat :=
  fold_right (fun b k => (Z.to_nat b + k)%nat) 0%nat bs.

(* ================================================================== *)
(** ** Effects: the generator, exceptions and the console *)

(** A function object: what calling it computes, and its [__name__].
    Conditions and weights are total and pure. *)
Record callable (Dom Cod : Type) : Type := mkCallable {
  call :> Dom -> Cod;
  fn_name : string
}.
Arguments mkCallable {Dom Cod} call fn_name.
Arguments call {Dom Cod} c x.
Arguments fn_name {Dom Cod} c.

Section Engine.

(** Values other than [None] that the generator can yield. *)
Context {A : Type}.

(** The generator: [gen_next g] is [Some (x, g')] when [next] yields [x]
    and leaves the generator in [g'], and [None] when it is exhausted. *)
Context {G : Type}.
Variable gen_next : G -> option (pyobj A * G).

(** One argument of [print]. *)
Inductive item : Type :=
| IStr (s : string)
| IInt (z : Z)
| IObj (o : pyobj A).        (* [str(o)] *)

(** What reaches the console and the progress bar, oldest first. *)
Inductive event : Type :=
| Print (items : list item)
| BarCreate (total : nat)    (* [tqdm(range(n), leave=False)] *)
| BarUpdate (k : Z)          (* [progress_bar.update(k)] *)
| BarClose.                  (* [progress_bar.close()] *)

(** The generator is one shared object; [pulls] counts the calls of
    [next] on it, the one that finds it exhausted included. *)
Record state : Type := mkState {
  gen : G;
  pulls : nat;
  out : list event
}.

Definition M (R : Type) : Type := state -> outcome R * state.

Definition ret {R} (r : R) : M R := fun st => (Return r, st).

Definition raise {R} (e : exn) : M R := fun st => (Raise e, st).

Definition bind {R S} (m : M R) (f : R -> M S) : M S :=
  fun st =>
    match m st with
    | (Return r, st') => f r st'
    | (Raise e, st') => (Raise e, st')
    end.

Definition lift {R} (o : outcome R) : M R := fun st => (o, st).

Definition emit (e : event) : M unit :=
  fun st => (Return tt, mkState (gen st) (pulls st) (out st ++ [e])).

Definition print (items : list item) : M unit := emit (Print items).

(** [next(generator)] *)
Definition next_ : M (pyobj A) :=
  fun st =>
    match gen_next (gen st) with
    | Some (x, g') => (Return x, mkState g' (S (pulls st)) (out st))
    | None => (Raise StopIteration, mkState (gen st) (S (pulls st)) (out st))
    end.

(** [int(s)] *)
Definition int_ (s : string) : M Z := lift (int_of_str s).

(** [len(range(n))] *)
Definition len_range (n : Z) : outcome nat :=
  if n >? PY_SSIZE_T_MAX then Raise OverflowError
  else Return (List.length (range n)).

(** [tqdm(range(n), leave=False)]: the bar takes its total from
    [len(range(n))] and lets the [OverflowError] of [len] through; nothing
    is shown when it is raised. *)
Definition tqdm_range (n : Z) : M unit :=
  bind (lift (len_range n)) (fun total => emit (BarCreate total)).

Notation "x <- m ;; k" := (bind m (fun x => k))
  (at level 61, m at next level, right associativity).
Notation "m ;;; k" := (bind m (fun _ => k))
  (at level 61, right associativity).

(** The heading shared by the searches without a weight. *)
Definition heading2 (title : string) (n : Z) (generator_name condition_name : string)
  : M unit :=
  print [IStr "  ________________________________"] ;;;
  print [IStr title; IInt n; IStr "times"] ;;;
  print [IStr "  - Generator:"; IStr generator_name] ;;;
  print [IStr "  - Condition:"; IStr condition_name] ;;;
  print [IStr "  ________________________________"] ;;;
  print [IStr ""].

(** The heading of the two searches with a weight. *)
Definition heading3 (title : string) (n : Z)
  (generator_name condition_name weight_name : string) : M unit :=
  print [IStr "  ________________________________"] ;;;
  print [IStr title; IInt n; IStr "times"] ;;;
  print [IStr "  - Generator:"; IStr generator_name] ;;;
  print [IStr "  - Condition:"; IStr condition_name] ;;;
  print [IStr "  - Weight:   "; IStr weight_name] ;;;
  print [IStr "  ________________________________"] ;;;
  print [IStr ""].

(* ---------------------------------------------------------------- *)
(** *** [find_counterexample] *)

Section Find.
Variable condition : callable (pyobj A) bool.

(** The body of [for i in range(length)] in [compute_batch], [k]
    iterations left. *)
Fixpoint find_compute_batch_loop (k : nat) : M (pyobj A) :=
  match k with
  | O => ret PyNone
  | S k' =>
      current_object <- next_ ;;
      if negb (condition current_object)
      then ret current_object
      else find_compute_batch_loop k'
  end.

Definition find_compute_batch (length : Z) : M (pyobj A) :=
  find_compute_batch_loop (Z.to_nat length).

(** [for batch in listOfBatches]: [Some r] when the function returns
    [r] from inside the loop, [None] when the loop runs to its end. *)
Fixpoint find_batches_loop (batches : list Z) : M (option (pyobj A)) :=
  match batches with
  | [] => ret None
  | batch :: rest =>
      current_result <- find_compute_batch batch ;;
      emit (BarUpdate batch) ;;;
      if is_not_None current_result
      then
        emit BarClose ;;;
        print [IStr "  Result: found counterexample!"] ;;;
        print [IStr "  -->"; IObj current_result] ;;;
        ret (Some current_result)
      else find_batches_loop rest
  end.

Definition find_counterexample (n : Z) (generator_name : string)
  (show_progress : bool) : M (pyobj A) :=
  heading2 "  Find counterexample" n generator_name (fn_name condition) ;;;
  tqdm_range n ;;;
  returned <- find_batches_loop (listOfBatches n) ;;
  match returned with
  | Some current_result => ret current_result
  | None =>
      emit BarClose ;;;
      print [IStr "  Result: no concluding."] ;;;
      ret PyNone
  end.
End Find.

(* ---------------------------------------------------------------- *)
(** *** [count_counterexamples] *)

Section Count.
Variable condition : callable (pyobj A) bool.

Fixpoint count_compute_batch_loop (k : nat) (local_count : Z) : M Z :=
  match k with
  | O => ret local_count
  | S k' =>
      current_object <- next_ ;;
      if negb (condition current_object)
      then count_compute_batch_loop k' (local_count + 1)
      else count_compute_batch_loop k' local_count
  end.

Definition count_compute_batch (length : Z) : M Z :=
  count_compute_batch_loop (Z.to_nat length) 0.

Fixpoint count_batches_loop (batches : list Z) (number_of_counterexamples : Z)
  : M Z :=
  match batches with
  | [] => ret number_of_counterexamples
  | batch :: rest =>
      local_count <- count_compute_batch batch ;;
      emit (BarUpdate batch) ;;;
      count_batches_loop rest (number_of_counterexamples + local_count)
  end.

Definition count_counterexamples (n : Z) (generator_name : string)
  (show_progress : bool) : M Z :=
  heading2 "  Count counterexamples" n generator_name (fn_name condition) ;;;
  tqdm_range n ;;;
  number_of_counterexamples <- count_batches_loop (listOfBatches n) 0 ;;
  print [IStr "  Result:"; IInt number_of_counterexamples;
         IStr "counterexamples found!"] ;;;
  ret number_of_counterexamples.
End Count.

(* ---------------------------------------------------------------- *)
(** *** [smallest_counterexample] *)

Section Smallest.
Variable condition : callable (pyobj A) bool.
Variable get_object_weight : callable (pyobj A) Z.

Fixpoint smallest_compute_batch_loop (k : nat)
  (local_smallest_counterexample : pyobj A) (local_smallest_weight : Z)
  : M (pyobj A * Z) :=
  match k with
  | O => ret (local_smallest_counterexample, local_smallest_weight)
  | S k' =>
      current_object <- next_ ;;
      if negb (condition current_object)
      then
        let current_weight := get_object_weight current_object in
        if current_weight <? local_smallest_weight
        then smallest_compute_batch_loop k' current_object current_weight
        else smallest_compute_batch_loop k'
               local_smallest_counterexample local_smallest_weight
      else smallest_compute_batch_loop k'
             local_smallest_counterexample local_smallest_weight
  end.

Definition smallest_compute_batch (length : Z) : M (pyobj A * Z) :=
  let local_smallest_counterexample := PyNone in
  local_smallest_weight <- int_ "inf" ;;
  smallest_compute_batch_loop (Z.to_nat length)
    local_smallest_counterexample local_smallest_weight.

Fixpoint smallest_batches_loop (batches : list Z)
  (smallest_counterexample : pyobj A) (smallest_weight : Z)
  : M (pyobj A * Z) :=
  match batches with
  | [] => ret (smallest_counterexample, smallest_weight)
  | batch :: rest =>
      local <- smallest_compute_batch batch ;;
      let '(local_smallest_counterexample, local_smallest_weight) := local in
      let '(smallest_counterexample', smallest_weight') :=
        if local_smallest_weight <? smallest_weight
        then (local_smallest_counterexample, local_smallest_weight)
        else (smallest_counterexample, smallest_weight) in
      emit (BarUpdate batch) ;;;
      smallest_batches_loop rest smallest_counterexample' smallest_weight'
  end.

Definition smallest_counterexample (n : Z) (generator_name : string)
  (show_progress : bool) : M (pyobj A) :=
  heading3 "  Find the smallest" n generator_name (fn_name condition)
    (fn_name get_object_weight) ;;;
  tqdm_range n ;;;
  let batches := listOfBatches n in
  let smallest_counterexample := PyNone in
  smallest_weight <- int_ "inf" ;;
  best <- smallest_batches_loop batches smallest_counterexample smallest_weight ;;
  let smallest_counterexample := fst best in
  (if is_not_None smallest_counterexample
   then
     print [IStr "  Result: lowest counterexample"] ;;;
     print [IStr "  -->"; IObj smallest_counterexample]
   else print [IStr "  Result:"; IStr "no counterexample found."]) ;;;
  ret smallest_counterexample.
End Smallest.

(* ---------------------------------------------------------------- *)
(** *** [greatest_counterexample] *)

Section Greatest.
Variable condition : callable (pyobj A) bool.
Variable get_object_weight : callable (pyobj A) Z.

Fixpoint greatest_compute_batch_loop (k : nat)
  (local_greatest_counterexample : pyobj A) (local_greatest_weight : Z)
  : M (pyobj A * Z) :=
  match k with
  | O => ret (local_greatest_counterexample, local_greatest_weight)
  | S k' =>
      current_object <- next_ ;;
      if negb (condition current_object)
      then
        let current_weight := get_object_weight current_object in
        if current_weight >? local_greatest_weight
        then greatest_compute_batch_loop k' current_object current_weight
        else greatest_compute_batch_loop k'
               local_greatest_counterexample local_greatest_weight
      else greatest_compute_batch_loop k'
             local_greatest_counterexample local_greatest_weight
  end.

Definition greatest_compute_batch (length : Z) : M (pyobj A * Z) :=
  let local_greatest_counterexample := PyNone in
  local_greatest_weight <- int_ "-inf" ;;
  greatest_compute_batch_loop (Z.to_nat length)
    local_greatest_counterexample local_greatest_weight.

Fixpoint greatest_batches_loop (batches : list Z)
  (greatest_counterexample : pyobj A) (greatest_weight : Z)
  : M (pyobj A * Z) :=
  match batches with
  | [] => ret (greatest_counterexample, greatest_weight)
  | batch :: rest =>
      local <- greatest_compute_batch batch ;;
      let '(local_greatest_counterexample, local_greatest_weight) := local in
      let '(greatest_counterexample', greatest_weight') :=
        if local_greatest_weight >? greatest_weight
        then (local_greatest_counterexample, local_greatest_weight)
        else (greatest_counterexample, greatest_weight) in
      emit (BarUpdate batch) ;;;
      greatest_batches_loop rest greatest_counterexample' greatest_weight'
  end.

Definition greatest_counterexample (n : Z) (generator_name : string)
  (show_progress : bool) : M (pyobj A) :=
  heading3 "  Find the greatest" n generator_name (fn_name condition)
    (fn_name get_object_weight) ;;;
  tqdm_range n ;;;
  let batches := listOfBatches n in
  let greatest_counterexample := PyNone in
  greatest_weight <- int_ "-inf" ;;
  best <- greatest_batches_loop batches greatest_counterexample greatest_weight ;;
  let greatest_counterexample := fst best in
  (if is_not_None greatest_counterexample
   then
     print [IStr "  Result: greatest counterexample"] ;;;
     print [IStr "  -->"; IObj greatest_counterexample]
   else print [IStr "  Result:"; IStr "no counterexample found."]) ;;;
  ret greatest_counterexample.
End Greatest.

(* ---------------------------------------------------------------- *)
(** *** Reading the source without running the search *)

(** The first [k] values of the generator in state [g], with the state
    it is left in; [None] when it has fewer than [k]. *)
Fixpoint take_gen (k : nat) (g : G) : option (list (pyobj A) * G) :=
  match k with
  | O => Some ([], g)
  | S k' =>
      match gen_next g with
      | None => None
      | Some (x, g1) =>
          match take_gen k' g1 with
          | None => None
          | Some (l, g2) => Some (x :: l, g2)
          end
      end
  end.

(* ---------------------------------------------------------------- *)
(** *** Measures of a computation *)

(** [m] calls [next] at most [k] times. *)
Definition pulls_within {R} (m : M R) (k : nat) : Prop :=
  forall st, (pulls st <= pulls (snd (m st)) <= pulls st + k)%nat.

(** [m] only adds to what was printed. *)
Definition out_grows {R} (m : M R) : Prop :=
  forall st, exists more, out (snd (m st)) = out st ++ more.

(** The printed headings, as one step. *)
Definition heading2_events (title : string) (n : Z) (gname cname : string)
  : list event :=
  [ Print [IStr "  ________________________________"];
    Print [IStr title; IInt n; IStr "times"];
    Print [IStr "  - Generator:"; IStr gname];
    Print [IStr "  - Condition:"; IStr cname];
    Print [IStr "  ________________________________"];
    Print [IStr ""] ].

Definition heading3_events (title : string) (n : Z) (gname cname wname : string)
  : list event :=
  [ Print [IStr "  ________________________________"];
    Print [IStr title; IInt n; IStr "times"];
    Print [IStr "  - Generator:"; IStr gname];
    Print [IStr "  - Condition:"; IStr cname];
    Print [IStr "  - Weight:   "; IStr wname];
    Print [IStr "  ________________________________"];
    Print [IStr ""] ].

(** A fresh call: nothing pulled, nothing printed. *)
Definition start (g : G) : state := mkState g 0 [].

End Engine.

Arguments item A : clear implicits.
Arguments event A : clear implicits.
Arguments state A G : clear implicits.

(* ================================================================== *)
(** ** What the searches are compared with *)

(** The candidates that fail the condition, in the order they are pulled. *)
Definition counterexamples {A} (condition : pyobj A -> bool) (l : list (pyobj A))
  : list (pyobj A) :=
  filter (fun x => negb (condition x)) l.

(** An unbatched scan, left to right, for the first candidate that fails
    the condition; [None] when there is none. *)
Definition unbatched_scan {A} (condition : pyobj A -> bool) (l : list (pyobj A))
  : pyobj A :=
  match find (fun x => negb (condition x)) l with
  | Some x => x
  | None => PyNone
  end.

(** The pulls of one batch of size [k] over the values [l]: it stops after
    the first value that fails the condition. *)
Fixpoint batch_pulls {A} (condition : pyobj A -> bool) (k : nat)
  (l : list (pyobj A)) : nat :=
  match k, l with
  | S k', x :: t => if condition x then S (batch_pulls condition k' t) else 1%nat
  | _, _ => 0%nat
  end.

(** The pulls of the batches [bs], each one starting where the one before
    it stopped. *)
Fixpoint plan_pulls {A} (condition : pyobj A -> bool) (bs : list Z)
  (l : list (pyobj A)) : nat :=
  match bs with
  | [] => 0%nat
  | b :: rest =>
      let j := batch_pulls condition (Z.to_nat b) l in
      (j + plan_pulls condition rest (skipn j l))%nat
  end.

(* ================================================================== *)
(** ** A generator over a finite list, and the conditions of the examples *)

(** A generator that yields the elements of a list and is then exhausted. *)
Definition list_next {A} (l : list (pyobj A)) : option (pyobj A * list (pyobj A)) :=
  match l with
  | [] => None
  | x :: t => Some (x, t)
  end.

(** [0, 1, ..., k-1] as objects. *)
Definition integers (k : nat) : list (pyobj Z) :=
  map (fun i => PyObj (Z.of_nat i)) (seq 0 k).

(** "is even"; [None] is not. *)
Definition is_even : callable (pyobj Z) bool :=
  mkCallable (fun x => match x with PyObj v => Z.even v | PyNone => false end)
             "is_even".

(** The identity weight; [None] weighs 0. *)
Definition identity : callable (pyobj Z) Z :=
  mkCallable (fun x => match x with PyObj v => v | PyNone => 0 end) "identity".

Definition always_true : callable (pyobj Z) bool :=
  mkCallable (fun _ => true) "always_true".

(** A generator that never ends: [i], [i + 1], [i + 2], ... *)
Definition endless_next (i : Z) : option (pyobj Z * Z) :=
  Some (PyObj i, i + 1).

(* ================================================================== *)
(** ** What a computation may print *)

(** Every event that [m] adds to the output satisfies [P]. *)
Definition emits_only {A G R} (P : event A -> Prop) (m : M (A:=A) (G:=G) R)
  : Prop :=
  forall st, exists more, out (snd (m st)) = out st ++ more /\ Forall P more.

(* ================================================================== *)
(** ** The demonstration script, [demo.py] *)

(** [sequence_generator(n)]: the generator of [for i in range(n): yield i],
    as the next value of [i] and the bound [n]. *)
Definition sequence_generator (n : Z) : Z * Z := (0, n).

Definition sequence_next (s : Z * Z) : option (pyobj Z * (Z * Z)) :=
  let '(i, n) := s in
  if i <? n then Some (PyObj i, (i + 1, n)) else None.

(** [sleep_condition]: after its pause it returns [True]; the pause is no
    part of the state. *)
Definition sleep_condition : callable (pyobj Z) bool :=
  mkCallable (fun _ => true) "sleep_condition".

(** The call that ends the script; [n] is 100001 there. *)
Definition demo (n : Z) : M (A:=Z) (G:=Z * Z) (pyobj Z) :=
  find_counterexample sequence_next sleep_condition n "sequence_generator" true.

(* ================================================================== *)
(** * Properties *)

(** ** The batch plan *)

Lemma map_const_range (c k : Z) :
  map (fun _ : Z => c) (range k) = repeat c (Z.to_nat k).
Proof.
  unfold range. rewrite map_map.
  generalize 0%nat. induction (Z.to_nat k) as [|m IH]; intros s; simpl.
  - reflexivity.
  - now rewrite IH.
Qed.

Lemma listOfBatches_repeat (n : Z) :
  listOfBatches n =
  repeat (n / 100 + 1) (Z.to_nat (n mod 100))
  ++ repeat (n / 100) (Z.to_nat (100 - n mod 100)).
Proof.
  unfold listOfBatches, UPDATE_RATIO. now rewrite !map_const_range.
Qed.

Lemma sum_app (l1 l2 : list Z) : sum (l1 ++ l2) = sum l1 + sum l2.
Proof.
  unfold sum. induction l1 as [|a l1 IH]; simpl; [reflexivity | lia].
Qed.

Lemma sum_repeat (c : Z) (k : nat) : sum (repeat c k) = Z.of_nat k * c.
Proof.
  unfold sum. induction k as [|k IH]; simpl repeat; simpl fold_right.
  - reflexivity.
  - rewrite IH. lia.
Qed.

Lemma sum_listOfBatches (n : Z) : sum (listOfBatches n) = n.
Proof.
  rewrite listOfBatches_repeat, sum_app, !sum_repeat.
  pose proof (Z.mod_pos_bound n 100 ltac:(lia)) as Hr.
  pose proof (Z.div_mod n 100 ltac:(lia)) as Hn.
  rewrite !Z2Nat.id by lia. lia.
Qed.

Lemma planned_pulls_app (l1 l2 : list Z) :
  planned_pulls (l1 ++ l2) = (planned_pulls l1 + planned_pulls l2)%nat.
Proof.
  unfold planned_pulls. induction l1 as [|a l1 IH]; simpl; [reflexivity | lia].
Qed.

Lemma sum_nonneg (bs : list Z) : Forall (fun b => 0 <= b) bs -> 0 <= sum bs.
Proof.
  induction 1 as [|b bs Hb _ IH]; [cbn; lia|].
  change (sum (b :: bs)) with (b + sum bs). lia.
Qed.

Lemma planned_pulls_sum (bs : list Z) :
  Forall (fun b => 0 <= b) bs -> planned_pulls bs = Z.to_nat (sum bs).
Proof.
  induction 1 as [|b bs Hb Hbs IH]; [reflexivity|].
  change (planned_pulls (b :: bs)) with (Z.to_nat b + planned_pulls bs)%nat.
  change (sum (b :: bs)) with (b + sum bs).
  pose proof (sum_nonneg bs Hbs). rewrite IH. lia.
Qed.

Lemma listOfBatches_nonneg (n : Z) :
  0 <= n -> Forall (fun b => 0 <= b) (listOfBatches n).
Proof.
  intros Hn. rewrite listOfBatches_repeat.
  pose proof (Z.div_pos n 100 Hn ltac:(lia)).
  apply Forall_app; split; apply Forall_forall; intros x Hx;
    apply repeat_spec in Hx; lia.
Qed.

Lemma planned_pulls_listOfBatches (n : Z) :
  0 <= n -> planned_pulls (listOfBatches n) = Z.to_nat n.
Proof.
  intros Hn. rewrite planned_pulls_sum by now apply listOfBatches_nonneg.
  now rewrite sum_listOfBatches.
Qed.

(** C5. For every [n >= 0] the plan is [n mod 100] batches of size
    [n div 100 + 1] followed by [100 - n mod 100] batches of size
    [n div 100]; it has exactly 100 entries (zero-size ones when [n < 100]),
    the entries sum to [n], any two differ by at most 1, and the larger
    ones come first. *)
Theorem listOfBatches_plan (n : Z) :
  0 <= n ->
  listOfBatches n =
    repeat (n / 100 + 1) (Z.to_nat (n mod 100))
    ++ repeat (n / 100) (Z.to_nat (100 - n mod 100))
  /\ List.length (listOfBatches n) = 100%nat
  /\ sum (listOfBatches n) = n
  /\ (forall a b, In a (listOfBatches n) -> In b (listOfBatches n) ->
        Z.abs (a - b) <= 1)
  /\ StronglySorted Z.ge (listOfBatches n)
  /\ (n < 100 -> count_occ Z.eq_dec (listOfBatches n) 0 = Z.to_nat (100 - n)).
Proof.
  intros Hn.
  pose proof (Z.mod_pos_bound n 100 ltac:(lia)) as Hr.
  split; [apply listOfBatches_repeat|].
  split.
  { rewrite listOfBatches_repeat, length_app, !repeat_length. lia. }
  split; [apply sum_listOfBatches|].
  split.
  { rewrite listOfBatches_repeat. intros a b Ha Hb.
    apply in_app_or in Ha. apply in_app_or in Hb.
    destruct Ha as [Ha|Ha], Hb as [Hb|Hb];
      apply repeat_spec in Ha; apply repeat_spec in Hb; lia. }
  split.
  { rewrite listOfBatches_repeat.
    generalize (Z.to_nat (100 - n mod 100)) as k2.
    generalize (Z.to_nat (n mod 100)) as k1.
    induction k1 as [|k1 IH]; intros k2; simpl.
    - induction k2 as [|k2 IH2]; simpl; constructor; [assumption|].
      apply Forall_forall. intros x Hx. apply repeat_spec in Hx. lia.
    - constructor; [apply IH|].
      apply Forall_forall. intros x Hx. apply in_app_or in Hx.
      destruct Hx as [Hx|Hx]; apply repeat_spec in Hx; lia. }
  intros Hlt. rewrite listOfBatches_repeat.
  rewrite Z.mod_small, Z.div_small by lia.
  rewrite count_occ_app.
  assert (H1 : forall k, count_occ Z.eq_dec (repeat (0 + 1) k) 0 = 0%nat).
  { induction k as [|k IH]; simpl; [reflexivity|].
    destruct (Z.eq_dec 1 0); [lia | assumption]. }
  assert (H0 : forall k, count_occ Z.eq_dec (repeat 0 k) 0 = k).
  { induction k as [|k IH]; simpl; [reflexivity|].
    destruct (Z.eq_dec 0 0); [now rewrite IH | lia]. }
  rewrite H1, H0. reflexivity.
Qed.

(* ================================================================== *)
(** ** The generator *)

Lemma firstn_length_app {T} (l1 l2 : list T) :
  firstn (List.length l1) (l1 ++ l2) = l1.
Proof. induction l1 as [|a l1 IH]; simpl; [reflexivity | now rewrite IH]. Qed.

Lemma skipn_length_app {T} (l1 l2 : list T) :
  skipn (List.length l1) (l1 ++ l2) = l2.
Proof. induction l1 as [|a l1 IH]; simpl; [reflexivity | assumption]. Qed.

(** Equality of two runs: the result on one side, the state on the other,
    with the arithmetic left to [lia]. *)
Ltac outcome_eq :=
  apply f_equal2; [ try reflexivity; apply f_equal; try lia
                  | try reflexivity; f_equal; try lia ].

Section Properties.

Context {A G : Type}.
Variable gen_next : G -> option (pyobj A * G).

#[local] Abbreviation take := (take_gen gen_next).
#[local] Abbreviation St := (state A G).

Lemma take_gen_length k : forall g l g',
  take k g = Some (l, g') -> List.length l = k.
Proof.
  induction k as [|k IH]; simpl; intros g l g' H.
  - now inversion H.
  - destruct (gen_next g) as [[x g1]|]; [|discriminate].
    destruct (take k g1) as [[l1 g2]|] eqn:E; [|discriminate].
    inversion H; subst. simpl. f_equal. eauto.
Qed.

Lemma take_gen_S k g l g' :
  take (S k) g = Some (l, g') ->
  exists x g1 l1, gen_next g = Some (x, g1)
                  /\ take k g1 = Some (l1, g') /\ l = x :: l1.
Proof.
  simpl. destruct (gen_next g) as [[x g1]|]; [|discriminate].
  destruct (take k g1) as [[l1 g2]|] eqn:E; [|discriminate].
  intros H; inversion H; subst. exists x, g1, l1. auto.
Qed.

(** Reading [a + b] values is reading [a] and then [b]. *)
Lemma take_gen_split a b : forall g l g',
  take (a + b) g = Some (l, g') ->
  exists g1, take a g = Some (firstn a l, g1)
             /\ take b g1 = Some (skipn a l, g').
Proof.
  induction a as [|a IH]; simpl; intros g l g' H.
  - exists g. now split.
  - destruct (gen_next g) as [[x g1]|]; [|discriminate].
    destruct (take (a + b) g1) as [[l1 g2]|] eqn:E; [|discriminate].
    inversion H; subst. destruct (IH _ _ _ E) as (g3 & H1 & H2).
    exists g3. simpl. now rewrite H1.
Qed.

Lemma take_gen_join a b : forall g l1 g1 l2 g2,
  take a g = Some (l1, g1) -> take b g1 = Some (l2, g2) ->
  take (a + b) g = Some (l1 ++ l2, g2).
Proof.
  induction a as [|a IH]; simpl; intros g l1 g1 l2 g2 H1 H2.
  - now inversion H1; subst.
  - destruct (gen_next g) as [[x g']|]; [|discriminate].
    destruct (take a g') as [[l g3]|] eqn:E; [|discriminate].
    inversion H1; subst. now rewrite (IH _ _ _ _ _ E H2).
Qed.

(** A source that has [m] values has any smaller number of them. *)
Lemma take_gen_le a m : forall g l g',
  (a <= m)%nat -> take m g = Some (l, g') ->
  exists g1, take a g = Some (firstn a l, g1)
             /\ take (m - a) g1 = Some (skipn a l, g').
Proof.
  intros g l g' Hle H. apply take_gen_split.
  now replace (a + (m - a))%nat with m by lia.
Qed.

(* ---------------------------------------------------------------- *)
(** ** How much a computation can pull and print *)

Lemma pulls_within_ret {R} (r : R) : pulls_within (A:=A) (G:=G) (ret r) 0.
Proof. intros st. simpl. lia. Qed.

Lemma pulls_within_emit e : pulls_within (A:=A) (G:=G) (emit e) 0.
Proof. intros st. simpl. lia. Qed.

Lemma pulls_within_next : pulls_within (next_ gen_next) 1.
Proof.
  intros st. unfold next_. destruct (gen_next (gen st)) as [[x g]|]; simpl; lia.
Qed.

Lemma pulls_within_bind {R S} (m : M (A:=A) (G:=G) R) (f : R -> M S) a b :
  pulls_within m a -> (forall r, pulls_within (f r) b) ->
  pulls_within (bind m f) (a + b).
Proof.
  intros Hm Hf st. unfold bind. specialize (Hm st).
  destruct (m st) as [[r|e] st'] eqn:E; simpl in *.
  - specialize (Hf r st'). lia.
  - lia.
Qed.

Lemma pulls_within_weaken {R} (m : M (A:=A) (G:=G) R) a b :
  (a <= b)%nat -> pulls_within m a -> pulls_within m b.
Proof. intros Hab Hm st. specialize (Hm st). lia. Qed.

Lemma out_grows_ret {R} (r : R) : out_grows (A:=A) (G:=G) (ret r).
Proof. intros st. exists []. simpl. now rewrite app_nil_r. Qed.

Lemma out_grows_emit e : out_grows (A:=A) (G:=G) (emit e).
Proof. intros st. now exists [e]. Qed.

Lemma out_grows_next : out_grows (next_ gen_next).
Proof.
  intros st. exists []. unfold next_.
  destruct (gen_next (gen st)) as [[x g]|]; simpl; now rewrite app_nil_r.
Qed.

Lemma out_grows_bind {R S} (m : M (A:=A) (G:=G) R) (f : R -> M S) :
  out_grows m -> (forall r, out_grows (f r)) -> out_grows (bind m f).
Proof.
  intros Hm Hf st. unfold bind. destruct (Hm st) as [m1 H1].
  destruct (m st) as [[r|e] st'] eqn:E; simpl in *.
  - destruct (Hf r st') as [m2 H2]. exists (m1 ++ m2).
    now rewrite H2, H1, app_assoc.
  - now exists m1.
Qed.

Lemma heading2_run title n gname cname (st : St) :
  heading2 title n gname cname st =
  (Return tt, mkState (gen st) (pulls st)
                (out st ++ heading2_events title n gname cname)).
Proof.
  unfold heading2, heading2_events, print, emit, bind. simpl.
  now rewrite <- !app_assoc.
Qed.

Lemma tqdm_range_run n (st : St) :
  n <= PY_SSIZE_T_MAX ->
  tqdm_range n st =
  (Return tt, mkState (gen st) (pulls st)
                (out st ++ [BarCreate (List.length (range n))])).
Proof.
  intros Hn. unfold tqdm_range, len_range, bind, lift.
  destruct (Z.gtb_spec n PY_SSIZE_T_MAX); [lia | reflexivity].
Qed.

Lemma tqdm_range_overflow n (st : St) :
  PY_SSIZE_T_MAX < n -> tqdm_range n st = (Raise OverflowError, st).
Proof.
  intros Hn. unfold tqdm_range, len_range, bind, lift.
  destruct (Z.gtb_spec n PY_SSIZE_T_MAX); [reflexivity | lia].
Qed.

Lemma heading3_run title n gname cname wname (st : St) :
  heading3 title n gname cname wname st =
  (Return tt, mkState (gen st) (pulls st)
                (out st ++ heading3_events title n gname cname wname)).
Proof.
  unfold heading3, heading3_events, print, emit, bind. simpl.
  now rewrite <- !app_assoc.
Qed.

(* ---------------------------------------------------------------- *)
(** ** [count_counterexamples] *)

Section CountProps.
Variable condition : callable (pyobj A) bool.

#[local] Abbreviation failures l :=
  (Z.of_nat (List.length (counterexamples condition l))).

Lemma failures_app l1 l2 : failures (l1 ++ l2) = failures l1 + failures l2.
Proof. unfold counterexamples. rewrite filter_app, length_app. lia. Qed.

Lemma failures_bounds l : 0 <= failures l <= Z.of_nat (List.length l).
Proof.
  unfold counterexamples. pose proof (filter_length_le (fun x => negb (condition x)) l).
  lia.
Qed.

(** One batch over a source that has enough values: every value is
    pulled and every failure is counted. *)
Lemma count_compute_batch_loop_run k : forall local_count (st : St) l g',
  take k (gen st) = Some (l, g') ->
  count_compute_batch_loop gen_next condition k local_count st =
  (Return (local_count + failures l),
   mkState g' (pulls st + k) (out st)).
Proof.
  induction k as [|k IH]; intros c st l g' H; simpl in H.
  - inversion H; subst. simpl. unfold ret. destruct st; simpl.
    now rewrite Z.add_0_r, Nat.add_0_r.
  - destruct (gen_next (gen st)) as [[x g1]|] eqn:E; [|discriminate].
    destruct (take k g1) as [[l1 g2]|] eqn:E1; [|discriminate].
    inversion H; subst. simpl. unfold bind, next_. rewrite E.
    unfold counterexamples. cbn [filter].
    destruct (condition x) eqn:Ec; cbn [negb];
      erewrite IH by (cbn [gen]; eassumption); cbn [gen pulls out List.length];
      unfold counterexamples; outcome_eq.
Qed.

(** The whole plan: the count does not depend on how the pulls are cut
    into batches. *)
Lemma count_batches_loop_run bs : forall total (st : St) l g',
  take (planned_pulls bs) (gen st) = Some (l, g') ->
  count_batches_loop gen_next condition bs total st =
  (Return (total + failures l),
   mkState g' (pulls st + planned_pulls bs) (out st ++ map BarUpdate bs)).
Proof.
  induction bs as [|b bs IH]; intros total st l g' H.
  - simpl in H. inversion H; subst. simpl. unfold ret. destruct st; simpl.
    now rewrite Z.add_0_r, Nat.add_0_r, app_nil_r.
  - change (planned_pulls (b :: bs))
      with (Z.to_nat b + planned_pulls bs)%nat in *.
    destruct (take_gen_split _ _ _ _ _ H) as (g1 & H1 & H2).
    simpl. unfold bind, count_compute_batch.
    rewrite (count_compute_batch_loop_run _ _ _ _ _ H1). simpl.
    erewrite IH by (cbn [gen]; exact H2). cbn [gen pulls out].
    rewrite <- (firstn_skipn (Z.to_nat b) l) at 3.
    rewrite failures_app, <- app_assoc. simpl.
    outcome_eq.
Qed.

Lemma count_counterexamples_run n gname flag (st : St) l g' :
  0 <= n -> n <= PY_SSIZE_T_MAX ->
  take (Z.to_nat n) (gen st) = Some (l, g') ->
  count_counterexamples gen_next condition n gname flag st =
  (Return (failures l),
   mkState g' (pulls st + Z.to_nat n)
     (out st
      ++ heading2_events "  Count counterexamples" n gname (fn_name condition)
      ++ [BarCreate (List.length (range n))]
      ++ map BarUpdate (listOfBatches n)
      ++ [Print [IStr "  Result:"; IInt (failures l);
                 IStr "counterexamples found!"]])).
Proof.
  intros Hn Hmax H. unfold count_counterexamples, bind.
  rewrite heading2_run, tqdm_range_run by assumption. cbn [emit gen pulls out].
  rewrite <- (planned_pulls_listOfBatches n Hn) in H.
  erewrite count_batches_loop_run by (simpl; eassumption).
  unfold print, emit, ret. cbn [gen pulls out].
  rewrite (planned_pulls_listOfBatches n Hn).
  rewrite <- !app_assoc. reflexivity.
Qed.

(** C3, amended. With [0 <= n < 2^63] and a source that has [n] values,
    [count_counterexamples] returns the number of values among the
    first [n] that fail the condition; the number is between 0 and
    [n]; and the loop gives the same number for every other way of
    cutting the [n] pulls into batches. *)
Theorem count_counterexamples_counts n gname flag (st : St) l g' :
  0 <= n -> n <= PY_SSIZE_T_MAX ->
  take (Z.to_nat n) (gen st) = Some (l, g') ->
  fst (count_counterexamples gen_next condition n gname flag st)
    = Return (failures l)
  /\ 0 <= failures l <= n
  /\ (forall bs, planned_pulls bs = Z.to_nat n ->
        fst (count_batches_loop gen_next condition bs 0 st)
          = Return (failures l)).
Proof.
  intros Hn Hmax H. split; [|split].
  - now rewrite (count_counterexamples_run n gname flag st l g' Hn Hmax H).
  - pose proof (failures_bounds l) as Hb.
    rewrite (take_gen_length _ _ _ _ H) in Hb. lia.
  - intros bs Hbs. rewrite <- Hbs in H.
    now rewrite (count_batches_loop_run bs 0 st l g' H).
Qed.
End CountProps.

(* ---------------------------------------------------------------- *)
(** ** A source that runs out *)

Section Exhaustion.
Variable condition : callable (pyobj A) bool.

(** The source has exactly the [j] values [l], and no more. *)
Lemma count_compute_batch_loop_exhausted k :
  forall local_count (st : St) j l g',
  take j (gen st) = Some (l, g') -> gen_next g' = None -> (j < k)%nat ->
  count_compute_batch_loop gen_next condition k local_count st =
  (Raise StopIteration, mkState g' (pulls st + j + 1) (out st)).
Proof.
  induction k as [|k IH]; intros c st j l g' H Hend Hlt; [lia|].
  destruct j as [|j]; simpl in H.
  - inversion H; subst. simpl. unfold bind, next_. rewrite Hend.
    outcome_eq.
  - destruct (gen_next (gen st)) as [[x g1]|] eqn:E; [|discriminate].
    destruct (take j g1) as [[l1 g2]|] eqn:E1; [|discriminate].
    inversion H; subst. simpl. unfold bind, next_. rewrite E.
    destruct (negb (condition x));
      erewrite IH by (cbn [gen]; try eassumption; lia);
      cbn [gen pulls out]; outcome_eq.
Qed.

Lemma count_batches_loop_exhausted bs :
  forall total (st : St) j l g',
  take j (gen st) = Some (l, g') -> gen_next g' = None ->
  (j < planned_pulls bs)%nat ->
  exists printed,
    count_batches_loop gen_next condition bs total st =
    (Raise StopIteration, mkState g' (pulls st + j + 1) printed).
Proof.
  induction bs as [|b bs IH]; intros total st j l g' H Hend Hlt;
    [simpl in Hlt; lia|].
  change (planned_pulls (b :: bs))
    with (Z.to_nat b + planned_pulls bs)%nat in Hlt.
  simpl. unfold bind, count_compute_batch.
  destruct (Nat.le_gt_cases (Z.to_nat b) j) as [Hle|Hgt].
  - destruct (take_gen_le _ _ _ _ _ Hle H) as (g1 & H1 & H2).
    rewrite (count_compute_batch_loop_run _ _ _ _ _ _ H1).
    cbn [emit gen pulls out].
    edestruct (IH (total + (0 + Z.of_nat
                    (List.length (counterexamples condition
                                    (firstn (Z.to_nat b) l)))))
                  (mkState g1 (pulls st + Z.to_nat b)
                           (out st ++ [BarUpdate b]))) as [p Hp];
      [cbn [gen]; exact H2 | exact Hend | lia |].
    rewrite Hp. exists p. cbn [pulls]. outcome_eq.
  - rewrite (count_compute_batch_loop_exhausted _ 0 st j l g' H Hend Hgt).
    eauto.
Qed.

(** When every value of the source satisfies the condition, a batch of
    [find_counterexample] runs to its end. *)
Lemma find_compute_batch_loop_all_true k : forall (st : St) l g',
  take k (gen st) = Some (l, g') ->
  Forall (fun x => condition x = true) l ->
  find_compute_batch_loop gen_next condition k st =
  (Return PyNone, mkState g' (pulls st + k) (out st)).
Proof.
  induction k as [|k IH]; intros st l g' H Hall; simpl in H.
  - inversion H; subst. simpl. unfold ret. destruct st; simpl.
    outcome_eq.
  - destruct (gen_next (gen st)) as [[x g1]|] eqn:E; [|discriminate].
    destruct (take k g1) as [[l1 g2]|] eqn:E1; [|discriminate].
    inversion H; subst. inversion Hall; subst.
    simpl. unfold bind, next_. rewrite E.
    match goal with Hx : call condition x = true |- _ => rewrite Hx end.
    cbn [negb]. erewrite IH by (cbn [gen]; eassumption).
    cbn [gen pulls out]. outcome_eq.
Qed.

Lemma find_compute_batch_loop_exhausted k : forall (st : St) j l g',
  take j (gen st) = Some (l, g') -> gen_next g' = None -> (j < k)%nat ->
  Forall (fun x => condition x = true) l ->
  find_compute_batch_loop gen_next condition k st =
  (Raise StopIteration, mkState g' (pulls st + j + 1) (out st)).
Proof.
  induction k as [|k IH]; intros st j l g' H Hend Hlt Hall; [lia|].
  destruct j as [|j]; simpl in H.
  - inversion H; subst. simpl. unfold bind, next_. rewrite Hend.
    outcome_eq.
  - destruct (gen_next (gen st)) as [[x g1]|] eqn:E; [|discriminate].
    destruct (take j g1) as [[l1 g2]|] eqn:E1; [|discriminate].
    inversion H; subst. inversion Hall; subst.
    simpl. unfold bind, next_. rewrite E.
    match goal with Hx : call condition x = true |- _ => rewrite Hx end.
    cbn [negb].
    erewrite IH by (cbn [gen]; try eassumption; lia).
    cbn [gen pulls out]. outcome_eq.
Qed.

Lemma find_batches_loop_all_true bs : forall (st : St) l g',
  take (planned_pulls bs) (gen st) = Some (l, g') ->
  Forall (fun x => condition x = true) l ->
  find_batches_loop gen_next condition bs st =
  (Return None,
   mkState g' (pulls st + planned_pulls bs) (out st ++ map BarUpdate bs)).
Proof.
  induction bs as [|b bs IH]; intros st l g' H Hall.
  - simpl in H. inversion H; subst. simpl. unfold ret. destruct st; simpl.
    rewrite app_nil_r. outcome_eq.
  - change (planned_pulls (b :: bs))
      with (Z.to_nat b + planned_pulls bs)%nat in *.
    destruct (take_gen_split _ _ _ _ _ H) as (g1 & H1 & H2).
    rewrite <- (firstn_skipn (Z.to_nat b) l) in Hall.
    apply Forall_app in Hall. destruct Hall as [Ha Hb].
    simpl. unfold bind, find_compute_batch.
    rewrite (find_compute_batch_loop_all_true _ _ _ _ H1 Ha).
    cbn [emit gen pulls out is_not_None].
    erewrite IH by (cbn [gen]; eassumption).
    cbn [gen pulls out]. rewrite <- app_assoc. outcome_eq.
Qed.

Lemma find_batches_loop_exhausted bs : forall (st : St) j l g',
  take j (gen st) = Some (l, g') -> gen_next g' = None ->
  (j < planned_pulls bs)%nat ->
  Forall (fun x => condition x = true) l ->
  exists printed,
    find_batches_loop gen_next condition bs st =
    (Raise StopIteration, mkState g' (pulls st + j + 1) printed).
Proof.
  induction bs as [|b bs IH]; intros st j l g' H Hend Hlt Hall;
    [simpl in Hlt; lia|].
  change (planned_pulls (b :: bs))
    with (Z.to_nat b + planned_pulls bs)%nat in Hlt.
  simpl. unfold bind, find_compute_batch.
  destruct (Nat.le_gt_cases (Z.to_nat b) j) as [Hle|Hgt].
  - destruct (take_gen_le _ _ _ _ _ Hle H) as (g1 & H1 & H2).
    rewrite <- (firstn_skipn (Z.to_nat b) l) in Hall.
    apply Forall_app in Hall. destruct Hall as [Ha Hb].
    rewrite (find_compute_batch_loop_all_true _ _ _ _ H1 Ha).
    cbn [emit gen pulls out is_not_None].
    edestruct (IH (mkState g1 (pulls st + Z.to_nat b)
                           (out st ++ [BarUpdate b]))) as [p Hp];
      [cbn [gen]; exact H2 | exact Hend | lia | exact Hb |].
    rewrite Hp. exists p. cbn [pulls]. outcome_eq.
  - rewrite (find_compute_batch_loop_exhausted _ st j l g' H Hend Hgt Hall).
    eauto.
Qed.
End Exhaustion.

(* ---------------------------------------------------------------- *)
(** ** [find_counterexample] *)

Section FindProps.
Variable condition : callable (pyobj A) bool.

#[local] Abbreviation holds := (fun x : pyobj A => condition x = true).

(** The batch meets its first failing value [c] after the values [l1]. *)
Lemma find_compute_batch_loop_found k : forall (st : St) l1 c g1,
  take (S (List.length l1)) (gen st) = Some (l1 ++ [c], g1) ->
  Forall holds l1 -> condition c = false -> (List.length l1 < k)%nat ->
  find_compute_batch_loop gen_next condition k st =
  (Return c, mkState g1 (pulls st + S (List.length l1)) (out st)).
Proof.
  induction k as [|k IH]; intros st l1 c g1 H Hall Hc Hlt; [lia|].
  destruct l1 as [|a l1].
  - simpl in H. destruct (gen_next (gen st)) as [[x g']|] eqn:E; [|discriminate].
    inversion H; subst. simpl. unfold bind, next_. rewrite E, Hc.
    cbn [negb]. unfold ret. cbn [List.length]. outcome_eq.
  - cbn [List.length app] in *.
    destruct (take_gen_S _ _ _ _ H) as (x & g' & l2 & E & E1 & Hl).
    inversion Hl; subst. inversion Hall; subst.
    cbn [find_compute_batch_loop]. unfold bind, next_. rewrite E.
    match goal with Hx : call condition _ = true |- _ => rewrite Hx end.
    cbn [negb].
    erewrite IH by (cbn [gen]; try eassumption; lia).
    cbn [gen pulls out]. outcome_eq.
Qed.

(** The plan meets a first failing value that is not [None]: the search
    stops there, whatever the batches are. *)
Lemma find_batches_loop_found bs : forall (st : St) l1 c g1,
  take (S (List.length l1)) (gen st) = Some (l1 ++ [c], g1) ->
  Forall holds l1 -> condition c = false -> is_not_None c = true ->
  (List.length l1 < planned_pulls bs)%nat ->
  exists printed,
    find_batches_loop gen_next condition bs st =
    (Return (Some c), mkState g1 (pulls st + S (List.length l1)) printed).
Proof.
  induction bs as [|b bs IH]; intros st l1 c g1 H Hall Hc Hnn Hlt;
    [simpl in Hlt; lia|].
  change (planned_pulls (b :: bs))
    with (Z.to_nat b + planned_pulls bs)%nat in Hlt.
  cbn [find_batches_loop]. unfold bind, find_compute_batch.
  destruct (Nat.le_gt_cases (Z.to_nat b) (List.length l1)) as [Hle|Hgt].
  - assert (Hle' : (Z.to_nat b <= S (List.length l1))%nat) by lia.
    destruct (take_gen_le _ _ _ _ _ Hle' H) as (g2 & H1 & H2).
    rewrite firstn_app in H1. rewrite skipn_app in H2.
    replace (Z.to_nat b - List.length l1)%nat with 0%nat in * by lia.
    cbn [firstn skipn] in *. rewrite app_nil_r in H1.
    rewrite <- (firstn_skipn (Z.to_nat b) l1) in Hall.
    apply Forall_app in Hall. destruct Hall as [Ha Hb].
    rewrite (find_compute_batch_loop_all_true _ _ _ _ _ H1 Ha).
    cbn [emit gen pulls out is_not_None].
    replace (S (List.length l1) - Z.to_nat b)%nat
      with (S (List.length (skipn (Z.to_nat b) l1))) in H2
      by (rewrite length_skipn; lia).
    edestruct (IH (mkState g2 (pulls st + Z.to_nat b)
                           (out st ++ [BarUpdate b]))) as [p Hp];
      [cbn [gen]; exact H2 | exact Hb | exact Hc | exact Hnn
      | rewrite length_skipn; lia |].
    rewrite Hp. exists p. cbn [pulls]. rewrite length_skipn. outcome_eq.
  - rewrite (find_compute_batch_loop_found _ _ _ _ _ H Hall Hc Hgt).
    cbn [emit gen pulls out]. rewrite Hnn.
    unfold print, emit, ret. cbn [gen pulls out]. eauto.
Qed.

(** [find] cuts the list at the first value that satisfies the test. *)
Lemma find_first_split {T} (f : T -> bool) (l : list T) c :
  find f l = Some c ->
  exists l1 l2, l = l1 ++ c :: l2
                /\ Forall (fun x => f x = false) l1 /\ f c = true.
Proof.
  induction l as [|a l IH]; simpl; [discriminate|].
  destruct (f a) eqn:Ea.
  - intros H; inversion H; subst. exists [], l. auto.
  - intros H. destruct (IH H) as (l1 & l2 & -> & Hall & Hc).
    exists (a :: l1), l2. auto.
Qed.

Lemma find_none_all {T} (f : T -> bool) (l : list T) :
  find f l = None -> Forall (fun x => f x = false) l.
Proof.
  induction l as [|a l IH]; simpl; [constructor|].
  destruct (f a) eqn:Ea; [discriminate|]. auto.
Qed.

Lemma find_split_first {T} (f : T -> bool) (l1 l2 : list T) c :
  Forall (fun x => f x = false) l1 -> f c = true ->
  find f (l1 ++ c :: l2) = Some c.
Proof.
  induction 1 as [|a l1 Ha _ IH]; simpl; intros Hc.
  - now rewrite Hc.
  - rewrite Ha. auto.
Qed.

(** A source that has the values [l1 ++ c :: l2] has [l1 ++ [c]]. *)
Lemma take_gen_prefix m (g : G) l1 c l2 g' :
  take m g = Some (l1 ++ c :: l2, g') ->
  exists g1, take (S (List.length l1)) g = Some (l1 ++ [c], g1).
Proof.
  intros H. pose proof (take_gen_length _ _ _ _ H) as Hlen.
  rewrite length_app in Hlen. cbn [List.length] in Hlen.
  assert (Hle : (S (List.length l1) <= m)%nat) by lia.
  destruct (take_gen_le _ _ _ _ _ Hle H) as (g1 & H1 & _).
  exists g1. rewrite H1. do 2 f_equal.
  replace (l1 ++ c :: l2) with ((l1 ++ [c]) ++ l2)
    by (now rewrite <- app_assoc).
  replace (S (List.length l1)) with (List.length (l1 ++ [c]))
    by (rewrite length_app; simpl; lia).
  apply firstn_length_app.
Qed.
End FindProps.

Section FindClaims.
Variable condition : callable (pyobj A) bool.

#[local] Abbreviation holds' := (fun x : pyobj A => condition x = true).
#[local] Abbreviation fails := (fun x : pyobj A => negb (condition x)).
(** A value that cannot stop the search: it passes, or it is [None]. *)
#[local] Abbreviation passes_or_None :=
  (fun x : pyobj A => condition x = true \/ x = PyNone).
#[local] Abbreviation failing l :=
  (List.length (counterexamples condition l)).

Lemma find_counterexample_found n gname flag (st : St) l1 c g1 :
  n <= PY_SSIZE_T_MAX ->
  take (S (List.length l1)) (gen st) = Some (l1 ++ [c], g1) ->
  Forall holds' l1 -> condition c = false -> is_not_None c = true ->
  (List.length l1 < Z.to_nat n)%nat ->
  exists printed,
    find_counterexample gen_next condition n gname flag st =
    (Return c, mkState g1 (pulls st + S (List.length l1)) printed).
Proof.
  intros Hmax H Hall Hc Hnn Hlt.
  assert (Hn : 0 <= n) by lia.
  unfold find_counterexample, bind.
  rewrite heading2_run, tqdm_range_run by assumption.
  cbn [emit gen pulls out].
  rewrite <- (planned_pulls_listOfBatches n Hn) in Hlt.
  edestruct (find_batches_loop_found condition (listOfBatches n)
               (mkState (gen st) (pulls st)
                  ((out st ++ heading2_events "  Find counterexample" n gname
                                (fn_name condition))
                   ++ [BarCreate (List.length (range n))])))
    as [p Hp]; [cbn [gen]; exact H | exact Hall | exact Hc | exact Hnn
               | exact Hlt |].
  rewrite Hp. unfold ret. cbn [pulls]. eauto.
Qed.

Lemma find_counterexample_all_true n gname flag (st : St) l g' :
  0 <= n -> n <= PY_SSIZE_T_MAX ->
  take (Z.to_nat n) (gen st) = Some (l, g') -> Forall holds' l ->
  exists printed,
    find_counterexample gen_next condition n gname flag st =
    (Return PyNone, mkState g' (pulls st + Z.to_nat n) printed).
Proof.
  intros Hn Hmax H Hall.
  unfold find_counterexample, bind.
  rewrite heading2_run, tqdm_range_run by assumption.
  cbn [emit gen pulls out].
  rewrite <- (planned_pulls_listOfBatches n Hn) in H.
  erewrite find_batches_loop_all_true by (cbn [gen]; eassumption).
  unfold print, emit, ret. cbn [gen pulls out].
  rewrite (planned_pulls_listOfBatches n Hn). eauto.
Qed.

(** No batch of the plan is larger than [n div 100 + 1]. *)
Lemma listOfBatches_sizes (n : Z) :
  0 <= n ->
  Forall (fun b => (Z.to_nat b <= S (Z.to_nat (n / 100)))%nat) (listOfBatches n).
Proof.
  intros Hn. rewrite listOfBatches_repeat.
  pose proof (Z.div_pos n 100 Hn ltac:(lia)).
  apply Forall_app; split; apply Forall_forall; intros x Hx;
    apply repeat_spec in Hx; lia.
Qed.

(** A batch on its way to [c], a failing value that comes after the values
    [l1], none of which can stop the search.  Either the batch ends before
    [c], by running to its end or at a failing [None], and what is lost of
    its size is made up by one failing [None] less ahead; or it pulls [c]
    and returns it. *)
Lemma find_compute_batch_loop_towards q k : forall (st : St) l1 c g1,
  (k <= S q)%nat ->
  take (S (List.length l1)) (gen st) = Some (l1 ++ [c], g1) ->
  Forall passes_or_None l1 -> condition c = false ->
  (exists l1' st1,
      find_compute_batch_loop gen_next condition k st = (Return PyNone, st1)
      /\ out st1 = out st
      /\ (pulls st1 + List.length l1' = pulls st + List.length l1)%nat
      /\ take (S (List.length l1')) (gen st1) = Some (l1' ++ [c], g1)
      /\ Forall passes_or_None l1'
      /\ (k + List.length l1' + failing l1' * q
          <= List.length l1 + failing l1 * q)%nat)
  \/ find_compute_batch_loop gen_next condition k st
     = (Return c, mkState g1 (pulls st + S (List.length l1)) (out st)).
Proof.
  induction k as [|k IH]; intros st l1 c g1 Hk H Hall Hc.
  - left. exists l1, st. cbn [find_compute_batch_loop]. unfold ret.
    repeat split; auto.
  - destruct l1 as [|x t].
    + right. simpl in H.
      destruct (gen_next (gen st)) as [[y g']|] eqn:E; [|discriminate].
      inversion H; subst. cbn [find_compute_batch_loop].
      unfold bind, next_. rewrite E, Hc. cbn [negb]. unfold ret.
      cbn [List.length]. outcome_eq.
    + cbn [List.length app] in H.
      destruct (take_gen_S _ _ _ _ H) as (y & g2 & l2 & E & E1 & Hl).
      inversion Hl; subst y l2. inversion Hall as [|? ? Hx Ht]; subst.
      cbn [find_compute_batch_loop]. unfold bind, next_. rewrite E.
      unfold counterexamples. cbn [filter List.length].
      destruct (condition x) eqn:Ec; cbn [negb List.length].
      * destruct (IH (mkState g2 (S (pulls st)) (out st)) t c g1)
          as [(l1' & st1 & Hrun & Ho & Hp & Ht' & Hall' & Hw) | Hrun];
          [lia | exact E1 | exact Ht | exact Hc | left | right].
        -- exists l1', st1. cbn [gen pulls out] in *.
           unfold counterexamples in Hw.
           repeat split; auto; lia.
        -- rewrite Hrun. cbn [gen pulls out]. outcome_eq.
      * destruct Hx as [Hx|Hx]; [congruence|]. subst x.
        left. exists t, (mkState g2 (S (pulls st)) (out st)). unfold ret.
        cbn [gen pulls out]. unfold counterexamples.
        repeat split; auto; lia.
Qed.

Lemma find_batches_loop_towards q bs : forall (st : St) l1 c g1,
  Forall (fun b => (Z.to_nat b <= S q)%nat) bs ->
  take (S (List.length l1)) (gen st) = Some (l1 ++ [c], g1) ->
  Forall passes_or_None l1 -> condition c = false -> is_not_None c = true ->
  (exists l1' st',
      find_batches_loop gen_next condition bs st = (Return None, st')
      /\ (pulls st' + List.length l1' = pulls st + List.length l1)%nat
      /\ (planned_pulls bs + List.length l1' + failing l1' * q
          <= List.length l1 + failing l1 * q)%nat)
  \/ exists printed,
      find_batches_loop gen_next condition bs st
      = (Return (Some c), mkState g1 (pulls st + S (List.length l1)) printed).
Proof.
  induction bs as [|b bs IH]; intros st l1 c g1 Hbs H Hall Hc Hnn.
  - left. exists l1, st. cbn. unfold ret. repeat split; lia.
  - inversion Hbs as [|? ? Hb Hbs']; subst.
    change (planned_pulls (b :: bs)) with (Z.to_nat b + planned_pulls bs)%nat.
    cbn [find_batches_loop]. unfold bind, find_compute_batch.
    destruct (find_compute_batch_loop_towards q (Z.to_nat b) st l1 c g1
                Hb H Hall Hc)
      as [(l1' & st1 & Hrun & Ho & Hp & Ht' & Hall' & Hw) | Hrun].
    + rewrite Hrun. cbn [emit is_not_None].
      destruct (IH (mkState (gen st1) (pulls st1) (out st1 ++ [BarUpdate b]))
                   l1' c g1 Hbs' Ht' Hall' Hc Hnn)
        as [(l1'' & st2 & Hrun2 & Hp2 & Hw2) | [p Hrun2]].
      * left. exists l1'', st2. cbn [pulls] in Hp2.
        split; [exact Hrun2|]. split; lia.
      * right. rewrite Hrun2. cbn [pulls]. eexists. outcome_eq.
    + right. rewrite Hrun. cbn [emit gen pulls out]. rewrite Hnn.
      unfold print, emit, ret. cbn [gen pulls out]. eauto.
Qed.

(** The whole search on its way to [c]: either it ends with [None] before
    it has pulled [c], the budget used up, or it pulls [c] and returns it
    at once. *)
Lemma find_counterexample_towards n gname flag (st : St) l1 c g1 :
  0 <= n -> n <= PY_SSIZE_T_MAX ->
  take (S (List.length l1)) (gen st) = Some (l1 ++ [c], g1) ->
  Forall passes_or_None l1 -> condition c = false -> c <> PyNone ->
  (exists st',
      find_counterexample gen_next condition n gname flag st
      = (Return PyNone, st')
      /\ (pulls st' <= pulls st + List.length l1)%nat
      /\ n <= Z.of_nat (List.length l1) + Z.of_nat (failing l1) * (n / 100))
  \/ exists printed,
      find_counterexample gen_next condition n gname flag st
      = (Return c, mkState g1 (pulls st + S (List.length l1)) printed).
Proof.
  intros Hn Hmax H Hall Hc Hne.
  assert (Hnn : is_not_None c = true)
    by (destruct c; [congruence | reflexivity]).
  unfold find_counterexample, bind.
  rewrite heading2_run, tqdm_range_run by assumption.
  cbn [emit gen pulls out].
  destruct (find_batches_loop_towards (Z.to_nat (n / 100)) (listOfBatches n)
              (mkState (gen st) (pulls st)
                 ((out st ++ heading2_events "  Find counterexample" n gname
                               (fn_name condition))
                  ++ [BarCreate (List.length (range n))]))
              l1 c g1 (listOfBatches_sizes n Hn) H Hall Hc Hnn)
    as [(l1' & st' & Hrun & Hp & Hw) | [p Hrun]].
  - left. rewrite Hrun. unfold print, emit, ret. cbn [gen pulls out].
    eexists. split; [reflexivity|]. cbn [pulls] in *.
    rewrite (planned_pulls_listOfBatches n Hn) in Hw.
    pose proof (Z.div_pos n 100 Hn ltac:(lia)) as Hq.
    split; [lia|].
    rewrite <- (Z2Nat.id (n / 100)) at 1 by exact Hq.
    rewrite <- Nat2Z.inj_mul, <- Nat2Z.inj_add. lia.
  - right. rewrite Hrun. unfold ret. cbn [pulls]. eauto.
Qed.

(** C4, amended. With [0 <= n < 2^63] and a source that has [n] values:
    let [c] be one of them that fails the condition and is not [None],
    every value before it passing or being [None].  Then either the search
    ends with [None] before it has pulled [c], or it pulls [c] and returns
    it at once, with no pull after it, whatever batch [c] falls in.  It
    does pull [c] when the position of [c] plus [n div 100] for each
    failing [None] before it is less than [n]: always, when nothing fails
    before [c].  When all [n] values satisfy the condition the search
    returns [None] after [n] pulls. *)
Theorem find_counterexample_first n gname flag (st : St) l g' :
  0 <= n -> n <= PY_SSIZE_T_MAX ->
  take (Z.to_nat n) (gen st) = Some (l, g') ->
  (forall l1 c l2,
      l = l1 ++ c :: l2 -> Forall passes_or_None l1 -> condition c = false ->
      c <> PyNone ->
      exists g1,
        take (S (List.length l1)) (gen st) = Some (l1 ++ [c], g1)
        /\ ((exists st',
                find_counterexample gen_next condition n gname flag st
                = (Return PyNone, st')
                /\ (pulls st' <= pulls st + List.length l1)%nat)
            \/ exists printed,
                find_counterexample gen_next condition n gname flag st
                = (Return c, mkState g1 (pulls st + S (List.length l1)) printed))
        /\ (Z.of_nat (List.length l1) + Z.of_nat (failing l1) * (n / 100) < n ->
            exists printed,
              find_counterexample gen_next condition n gname flag st
              = (Return c, mkState g1 (pulls st + S (List.length l1)) printed)))
  /\ (Forall holds' l ->
      exists printed,
        find_counterexample gen_next condition n gname flag st =
        (Return PyNone, mkState g' (pulls st + Z.to_nat n) printed)).
Proof.
  intros Hn Hmax H. split.
  - intros l1 c l2 -> Hall Hc Hne.
    destruct (take_gen_prefix _ _ _ _ _ _ H) as [g1 H1].
    exists g1. split; [exact H1|].
    destruct (find_counterexample_towards n gname flag st l1 c g1
                Hn Hmax H1 Hall Hc Hne) as [(st' & Hrun & Hp & Hw) | Hrun].
    + split; [left; eauto | intros Hreach; lia].
    + split; [right; exact Hrun | intros _; exact Hrun].
  - intros Hall. now apply find_counterexample_all_true with (l := l).
Qed.

(** C8, amended. With [0 <= n < 2^63], a source that has [n] values, and
    a first failing value (if there is one) that is not [None],
    [find_counterexample] returns what the unbatched scan of the [n]
    values returns, and so does the loop over any other batches that
    add up to [n] pulls. *)
Theorem find_counterexample_unbatched n gname flag (st : St) l g' :
  0 <= n -> n <= PY_SSIZE_T_MAX ->
  take (Z.to_nat n) (gen st) = Some (l, g') ->
  find fails l <> Some PyNone ->
  fst (find_counterexample gen_next condition n gname flag st)
    = Return (unbatched_scan condition l)
  /\ (forall bs, planned_pulls bs = Z.to_nat n ->
        fst (find_batches_loop gen_next condition bs st)
          = Return (find fails l)).
Proof.
  intros Hn Hmax H Hnone. unfold unbatched_scan.
  destruct (find fails l) as [c|] eqn:Ef.
  - destruct (find_first_split _ _ _ Ef) as (l1 & l2 & -> & Hall & Hc).
    assert (Hall' : Forall holds' l1).
    { eapply Forall_impl; [|exact Hall]. cbv beta. intros x Hx.
      now destruct (condition x). }
    assert (Hc' : condition c = false) by now destruct (condition c).
    assert (Hnn : is_not_None c = true)
      by (destruct c; [congruence | reflexivity]).
    destruct (take_gen_prefix _ _ _ _ _ _ H) as [g1 H1].
    pose proof (take_gen_length _ _ _ _ H) as Hlen.
    rewrite length_app in Hlen. cbn [List.length] in Hlen.
    split.
    + destruct (find_counterexample_found n gname flag st l1 c g1
                  Hmax H1 Hall' Hc' Hnn) as [p Hp]; [lia|].
      now rewrite Hp.
    + intros bs Hbs.
      destruct (find_batches_loop_found condition bs st l1 c g1
                  H1 Hall' Hc' Hnn) as [p Hp]; [lia|].
      now rewrite Hp.
  - pose proof (find_none_all _ _ Ef) as Hall.
    assert (Hall' : Forall holds' l).
    { eapply Forall_impl; [|exact Hall]. cbv beta. intros x Hx.
      now destruct (condition x). }
    split.
    + destruct (find_counterexample_all_true n gname flag st l g'
                  Hn Hmax H Hall') as [p Hp].
      now rewrite Hp.
    + intros bs Hbs. rewrite <- Hbs in H.
      now rewrite (find_batches_loop_all_true condition bs st l g' H Hall').
Qed.
End FindClaims.

(* ---------------------------------------------------------------- *)
(** ** [None] as a candidate *)

Section NoneConflation.
Variable condition : callable (pyobj A) bool.

(** Every value either satisfies the condition or is [None]. *)
#[local] Abbreviation harmless :=
  (fun x : pyobj A => condition x = true \/ x = PyNone).

(** Over such values a batch always hands [None] to the loop, by
    running to its end or by stopping at a [None] that fails, after
    [batch_pulls] pulls. *)
Lemma find_compute_batch_loop_only_None k : forall (st : St) m l g',
  (k <= m)%nat -> take m (gen st) = Some (l, g') -> Forall harmless l ->
  exists pulled rest g1,
    l = pulled ++ rest
    /\ List.length pulled = batch_pulls condition k l
    /\ take (batch_pulls condition k l) (gen st) = Some (pulled, g1)
    /\ take (m - batch_pulls condition k l) g1 = Some (rest, g')
    /\ (batch_pulls condition k l <= k)%nat
    /\ find_compute_batch_loop gen_next condition k st
       = (Return PyNone,
          mkState g1 (pulls st + batch_pulls condition k l) (out st)).
Proof.
  induction k as [|k IH]; intros st m l g' Hle H Hall.
  - exists [], l, (gen st). cbn [batch_pulls find_compute_batch_loop].
    rewrite Nat.sub_0_r, Nat.add_0_r. unfold ret. destruct st; cbn.
    repeat split; auto.
  - destruct m as [|m]; [lia|].
    destruct (take_gen_S _ _ _ _ H) as (x & g2 & l2 & E & E1 & ->).
    inversion Hall as [|? ? Hx Hl2]; subst.
    cbn [find_compute_batch_loop batch_pulls]. unfold bind, next_. rewrite E.
    destruct (condition x) eqn:Ec; cbn [negb].
    + destruct (IH (mkState g2 (S (pulls st)) (out st)) m l2 g')
        as (pulled & rest & g1 & Hl & Hlen & Ht & Hr & Hj & Hrun);
        [lia | exact E1 | exact Hl2 |].
      exists (x :: pulled), rest, g1. cbn [gen pulls out] in *.
      split; [now rewrite Hl|]. split; [cbn; now rewrite Hlen|].
      split; [cbn [take_gen]; now rewrite E, Ht|].
      split; [exact Hr|]. split; [lia|].
      rewrite Hrun. outcome_eq.
    + destruct Hx as [Hx|Hx]; [congruence|]. subst x.
      exists [PyNone], l2, g2. cbn [gen pulls out].
      split; [reflexivity|]. split; [reflexivity|].
      split; [cbn [take_gen]; now rewrite E|].
      split; [now replace (S m - 1)%nat with m by lia|]. split; [lia|].
      unfold ret. outcome_eq.
Qed.

Lemma find_batches_loop_only_None bs : forall (st : St) m l g',
  (planned_pulls bs <= m)%nat ->
  take m (gen st) = Some (l, g') -> Forall harmless l ->
  exists pulled rest g1,
    l = pulled ++ rest
    /\ List.length pulled = plan_pulls condition bs l
    /\ take (plan_pulls condition bs l) (gen st) = Some (pulled, g1)
    /\ take (m - plan_pulls condition bs l) g1 = Some (rest, g')
    /\ (plan_pulls condition bs l <= planned_pulls bs)%nat
    /\ find_batches_loop gen_next condition bs st
       = (Return None,
          mkState g1 (pulls st + plan_pulls condition bs l)
            (out st ++ map BarUpdate bs)).
Proof.
  induction bs as [|b bs IH]; intros st m l g' Hle H Hall.
  - exists [], l, (gen st). cbn [plan_pulls find_batches_loop map].
    rewrite Nat.sub_0_r, Nat.add_0_r, app_nil_r. unfold ret. destruct st; cbn.
    repeat split; auto.
  - change (planned_pulls (b :: bs))
      with (Z.to_nat b + planned_pulls bs)%nat in *.
    destruct (find_compute_batch_loop_only_None (Z.to_nat b) st m l g')
      as (p1 & r1 & g1 & Hl & Hlen & Ht & Hr & Hj & Hrun);
      [lia | exact H | exact Hall |].
    assert (Hskip : skipn (batch_pulls condition (Z.to_nat b) l) l = r1).
    { rewrite <- Hlen, Hl. apply skipn_length_app. }
    rewrite Hl in Hall. apply Forall_app in Hall. destruct Hall as [_ Hall1].
    destruct (IH (mkState g1 (pulls st + batch_pulls condition (Z.to_nat b) l)
                          (out st ++ [BarUpdate b]))
                 (m - batch_pulls condition (Z.to_nat b) l)%nat r1 g')
      as (p2 & r2 & g2 & Hl2 & Hlen2 & Ht2 & Hr2 & Hj2 & Hrun2);
      [lia | exact Hr | exact Hall1 |].
    cbn [gen pulls out] in *.
    exists (p1 ++ p2), r2, g2.
    cbn [plan_pulls find_batches_loop]. rewrite Hskip.
    split; [now rewrite Hl, Hl2, app_assoc|].
    split; [rewrite length_app; lia|].
    split; [now apply take_gen_join with (g1 := g1)|].
    split; [now rewrite Nat.sub_add_distr|]. split; [lia|].
    unfold bind, find_compute_batch. rewrite Hrun.
    cbn [emit gen pulls out is_not_None]. rewrite Hrun2.
    cbn [map]. rewrite <- app_assoc. cbn [app]. outcome_eq.
Qed.

(** C10. When [None] fails the condition: a batch that pulls [None]
    after values that satisfy the condition hands [None] to the loop, which
    takes it for "nothing in this batch" and goes on with the next batch
    from the value after it.  A search with [0 <= n < 2^63] over [n] values
    whose only failing values are [None] goes through all 100 batches this
    way, each one ending at its first failing [None] or at its size: it
    makes [plan_pulls] pulls, leaves the generator after the values it
    pulled, returns [None] and prints the message of a search that found
    nothing. *)
Theorem find_counterexample_None_conflated n gname flag :
  condition PyNone = false ->
  (forall b bs (st : St) l1 g1,
      take (S (List.length l1)) (gen st) = Some (l1 ++ [PyNone], g1) ->
      Forall (fun x => condition x = true) l1 ->
      (List.length l1 < Z.to_nat b)%nat ->
      find_batches_loop gen_next condition (b :: bs) st =
      find_batches_loop gen_next condition bs
        (mkState g1 (pulls st + S (List.length l1)) (out st ++ [BarUpdate b])))
  /\ (forall (st : St) l g',
      0 <= n -> n <= PY_SSIZE_T_MAX ->
      take (Z.to_nat n) (gen st) = Some (l, g') ->
      (forall x, In x l -> condition x = false -> x = PyNone) ->
      let made := plan_pulls condition (listOfBatches n) l in
      exists g1,
        take made (gen st) = Some (firstn made l, g1)
        /\ (made <= Z.to_nat n)%nat
        /\ find_counterexample gen_next condition n gname flag st =
           (Return PyNone,
            mkState g1 (pulls st + made)
              (out st
               ++ heading2_events "  Find counterexample" n gname
                    (fn_name condition)
               ++ [BarCreate (List.length (range n))]
               ++ map BarUpdate (listOfBatches n)
               ++ [BarClose; Print [IStr "  Result: no concluding."]]))).
Proof.
  intros HNone. split.
  - intros b bs st l1 g1 H Hall Hlt.
    cbn [find_batches_loop]. unfold bind, find_compute_batch.
    rewrite (find_compute_batch_loop_found condition _ _ _ _ _ H Hall HNone Hlt).
    reflexivity.
  - intros st l g' Hn Hmax H Honly made.
    assert (Hall : Forall harmless l).
    { apply Forall_forall. intros x Hx.
      destruct (condition x) eqn:Ec; [now left | right; auto]. }
    destruct (find_batches_loop_only_None (listOfBatches n)
                (mkState (gen st) (pulls st)
                   ((out st ++ heading2_events "  Find counterexample" n
                                 gname (fn_name condition))
                    ++ [BarCreate (List.length (range n))]))
                (Z.to_nat n) l g')
      as (p & r & g1 & Hl & Hlen & Ht & _ & Hj & Hrun);
      [rewrite (planned_pulls_listOfBatches n Hn); apply Nat.le_refl
      | cbn [gen]; exact H | exact Hall |].
    cbn [gen pulls out] in *. fold made in Hlen, Ht, Hj, Hrun.
    exists g1. split.
    { rewrite Ht. do 2 f_equal. rewrite <- Hlen, Hl.
      symmetry. apply firstn_length_app. }
    split; [now rewrite (planned_pulls_listOfBatches n Hn) in Hj|].
    unfold find_counterexample, bind.
    rewrite heading2_run, tqdm_range_run by assumption.
    cbn [emit gen pulls out]. rewrite Hrun.
    unfold print, emit, ret. cbn [gen pulls out].
    rewrite <- !app_assoc. reflexivity.
Qed.
End NoneConflation.

(* ---------------------------------------------------------------- *)
(** ** Fewer values than checks *)

Section Short.
Variable condition : callable (pyobj A) bool.

(** C7, amended. When the source has exactly [j] values, [j < n] and
    [n < 2^63]: [count_counterexamples] raises [StopIteration] at pull
    [j + 1] and returns no count; [find_counterexample] does the same when
    all [j] values satisfy the condition; and when instead a value other
    than [None] fails after values that all satisfy the condition,
    [find_counterexample] returns that value at once and raises nothing. *)
Theorem search_on_short_source n gname flag (st : St) j l g' :
  n <= PY_SSIZE_T_MAX ->
  take j (gen st) = Some (l, g') -> gen_next g' = None ->
  (j < Z.to_nat n)%nat ->
  (exists printed,
      count_counterexamples gen_next condition n gname flag st =
      (Raise StopIteration, mkState g' (pulls st + j + 1) printed))
  /\ (Forall (fun x => condition x = true) l ->
      exists printed,
        find_counterexample gen_next condition n gname flag st =
        (Raise StopIteration, mkState g' (pulls st + j + 1) printed))
  /\ (forall l1 c l2,
        l = l1 ++ c :: l2 -> Forall (fun x => condition x = true) l1 ->
        condition c = false -> c <> PyNone ->
        exists g1 printed,
          take (S (List.length l1)) (gen st) = Some (l1 ++ [c], g1)
          /\ find_counterexample gen_next condition n gname flag st =
             (Return c, mkState g1 (pulls st + S (List.length l1)) printed)).
Proof.
  intros Hmax H Hend Hlt. assert (Hn : 0 <= n) by lia.
  split; [|split].
  - rewrite <- (planned_pulls_listOfBatches n Hn) in Hlt.
    unfold count_counterexamples, bind.
    rewrite heading2_run, tqdm_range_run by assumption.
    cbn [emit gen pulls out].
    edestruct (count_batches_loop_exhausted condition (listOfBatches n) 0
                 (mkState (gen st) (pulls st)
                    ((out st ++ heading2_events "  Count counterexamples" n
                                  gname (fn_name condition))
                     ++ [BarCreate (List.length (range n))])))
      as [p Hp]; [cbn [gen]; exact H | exact Hend | exact Hlt |].
    rewrite Hp. cbn [pulls]. eauto.
  - intros Hall. rewrite <- (planned_pulls_listOfBatches n Hn) in Hlt.
    unfold find_counterexample, bind.
    rewrite heading2_run, tqdm_range_run by assumption.
    cbn [emit gen pulls out].
    edestruct (find_batches_loop_exhausted condition (listOfBatches n)
                 (mkState (gen st) (pulls st)
                    ((out st ++ heading2_events "  Find counterexample" n
                                  gname (fn_name condition))
                     ++ [BarCreate (List.length (range n))])))
      as [p Hp]; [cbn [gen]; exact H | exact Hend | exact Hlt | exact Hall |].
    rewrite Hp. cbn [pulls]. eauto.
  - intros l1 c l2 -> Hall Hc Hne.
    destruct (take_gen_prefix _ _ _ _ _ _ H) as [g1 H1].
    pose proof (take_gen_length _ _ _ _ H) as Hlen.
    rewrite length_app in Hlen. cbn [List.length] in Hlen.
    assert (Hnn : is_not_None c = true)
      by (destruct c; [congruence | reflexivity]).
    destruct (find_counterexample_found condition n gname flag st l1 c g1
                Hmax H1 Hall Hc Hnn) as [p Hp]; [lia|].
    exists g1, p. now split.
Qed.
End Short.

(* ---------------------------------------------------------------- *)
(** ** Pulls and output of a whole search *)

Section Budget.
Variable condition : callable (pyobj A) bool.

Lemma pulls_within_find_compute_batch_loop k :
  pulls_within (find_compute_batch_loop gen_next condition k) k.
Proof.
  induction k as [|k IH]; cbn [find_compute_batch_loop].
  - apply pulls_within_ret.
  - change (S k) with (1 + k)%nat.
    apply pulls_within_bind; [apply pulls_within_next|].
    intros x. destruct (negb (condition x)); [|exact IH].
    eapply pulls_within_weaken; [|apply pulls_within_ret]. lia.
Qed.

Lemma pulls_within_find_batches_loop bs :
  pulls_within (find_batches_loop gen_next condition bs) (planned_pulls bs).
Proof.
  induction bs as [|b bs IH]; cbn [find_batches_loop].
  - apply pulls_within_ret.
  - change (planned_pulls (b :: bs))
      with (Z.to_nat b + planned_pulls bs)%nat.
    apply pulls_within_bind;
      [apply pulls_within_find_compute_batch_loop|].
    intros r. change (planned_pulls bs) with (0 + planned_pulls bs)%nat.
    apply pulls_within_bind; [apply pulls_within_emit|]. intros _.
    destruct (is_not_None r); [|exact IH].
    eapply pulls_within_weaken with (a := (0 + (0 + (0 + 0)))%nat); [lia|].
    repeat (apply pulls_within_bind;
            [apply pulls_within_emit | intros _]).
    apply pulls_within_ret.
Qed.

(** [find_counterexample] never pulls more than [n] times, whatever the
    source and the condition are. *)
Lemma find_counterexample_pulls_le n gname flag (st : St) :
  0 <= n ->
  (pulls (snd (find_counterexample gen_next condition n gname flag st))
   <= pulls st + Z.to_nat n)%nat.
Proof.
  intros Hn. unfold find_counterexample, bind. rewrite heading2_run.
  destruct (Z.le_gt_cases n PY_SSIZE_T_MAX) as [Hmax|Hmax];
    [|rewrite tqdm_range_overflow by lia; cbn [snd pulls]; lia].
  rewrite tqdm_range_run by assumption.
  cbn [emit gen pulls out].
  match goal with
  | |- context [find_batches_loop _ _ _ ?s] =>
      pose proof (pulls_within_find_batches_loop (listOfBatches n) s) as Hp;
      destruct (find_batches_loop gen_next condition (listOfBatches n) s)
        as [[[r|]|e] st']
  end; cbn [gen pulls out snd ret print emit] in *;
    rewrite (planned_pulls_listOfBatches n Hn) in Hp; unfold ret; cbn [snd pulls];
    lia.
Qed.

(** [count_counterexamples] pulls exactly [n] times. *)
Lemma count_counterexamples_pulls n gname flag (st : St) l g' :
  0 <= n -> n <= PY_SSIZE_T_MAX ->
  take (Z.to_nat n) (gen st) = Some (l, g') ->
  pulls (snd (count_counterexamples gen_next condition n gname flag st))
    = (pulls st + Z.to_nat n)%nat.
Proof.
  intros Hn Hmax H.
  now rewrite (count_counterexamples_run condition n gname flag st l g'
                 Hn Hmax H).
Qed.

Lemma out_grows_find_compute_batch_loop k :
  out_grows (find_compute_batch_loop gen_next condition k).
Proof.
  induction k as [|k IH]; cbn [find_compute_batch_loop].
  - apply out_grows_ret.
  - apply out_grows_bind; [apply out_grows_next|].
    intros x. destruct (negb (condition x)); [apply out_grows_ret | exact IH].
Qed.

Lemma out_grows_find_batches_loop bs :
  out_grows (find_batches_loop gen_next condition bs).
Proof.
  induction bs as [|b bs IH]; cbn [find_batches_loop].
  - apply out_grows_ret.
  - apply out_grows_bind; [apply out_grows_find_compute_batch_loop|].
    intros r. apply out_grows_bind; [apply out_grows_emit|]. intros _.
    destruct (is_not_None r); [|exact IH].
    repeat (apply out_grows_bind; [apply out_grows_emit | intros _]).
    apply out_grows_ret.
Qed.

Lemma out_grows_count_compute_batch_loop k : forall c,
  out_grows (count_compute_batch_loop gen_next condition k c).
Proof.
  induction k as [|k IH]; intros c; cbn [count_compute_batch_loop].
  - apply out_grows_ret.
  - apply out_grows_bind; [apply out_grows_next|].
    intros x. destruct (negb (condition x)); apply IH.
Qed.

Lemma out_grows_count_batches_loop bs : forall c,
  out_grows (count_batches_loop gen_next condition bs c).
Proof.
  induction bs as [|b bs IH]; intros c; cbn [count_batches_loop].
  - apply out_grows_ret.
  - apply out_grows_bind; [apply out_grows_count_compute_batch_loop|].
    intros r. apply out_grows_bind; [apply out_grows_emit|]. intros _.
    apply IH.
Qed.

(** What the two searches without a weight print first, whatever
    happens afterwards: the heading, and the bar when its total fits. *)
Lemma find_counterexample_out n gname flag (st : St) :
  exists more,
    out (snd (find_counterexample gen_next condition n gname flag st)) =
    out st ++ heading2_events "  Find counterexample" n gname (fn_name condition)
    ++ (if n <=? PY_SSIZE_T_MAX
        then BarCreate (List.length (range n)) :: more else []).
Proof.
  unfold find_counterexample, bind. rewrite heading2_run.
  destruct (Z.leb_spec n PY_SSIZE_T_MAX) as [Hmax|Hmax];
    [|rewrite tqdm_range_overflow by lia; exists []; reflexivity].
  rewrite tqdm_range_run by assumption.
  cbn [emit gen pulls out].
  match goal with
  | |- context [find_batches_loop _ _ _ ?s] =>
      destruct (out_grows_find_batches_loop (listOfBatches n) s) as [m Hm];
      destruct (find_batches_loop gen_next condition (listOfBatches n) s)
        as [[[r|]|e] st']
  end; cbn [gen pulls out snd] in *; unfold print, emit, ret; cbn [snd out];
    rewrite Hm, <- ?app_assoc; cbn [app]; eauto.
Qed.

Lemma count_counterexamples_out n gname flag (st : St) :
  exists more,
    out (snd (count_counterexamples gen_next condition n gname flag st)) =
    out st ++ heading2_events "  Count counterexamples" n gname (fn_name condition)
    ++ (if n <=? PY_SSIZE_T_MAX
        then BarCreate (List.length (range n)) :: more else []).
Proof.
  unfold count_counterexamples, bind. rewrite heading2_run.
  destruct (Z.leb_spec n PY_SSIZE_T_MAX) as [Hmax|Hmax];
    [|rewrite tqdm_range_overflow by lia; exists []; reflexivity].
  rewrite tqdm_range_run by assumption.
  cbn [emit gen pulls out].
  match goal with
  | |- context [count_batches_loop _ _ _ ?c ?s] =>
      destruct (out_grows_count_batches_loop (listOfBatches n) c s) as [m Hm];
      destruct (count_batches_loop gen_next condition (listOfBatches n) c s)
        as [[r|e] st']
  end; cbn [gen pulls out snd] in *; unfold print, emit, ret; cbn [snd out];
    rewrite Hm, <- ?app_assoc; cbn [app]; eauto.
Qed.
End Budget.

(* ---------------------------------------------------------------- *)
(** ** The two searches by weight *)

Section Extremal.
Variable condition : callable (pyobj A) bool.
Variable get_object_weight : callable (pyobj A) Z.

Lemma int_of_str_inf : int_of_str "inf" = Raise ValueError.
Proof. reflexivity. Qed.

Lemma int_of_str_minus_inf : int_of_str "-inf" = Raise ValueError.
Proof. reflexivity. Qed.

(** The whole run of the two searches by weight: the heading, then the
    bar, whose creation raises when its total does not fit, then the
    sentinel, whose construction raises. *)
Lemma extremal_search_raises_run n gname flag (st : St) :
  smallest_counterexample gen_next condition get_object_weight n gname flag st
  = (Raise (if n <=? PY_SSIZE_T_MAX then ValueError else OverflowError),
     mkState (gen st) (pulls st)
       (out st
        ++ heading3_events "  Find the smallest" n gname
             (fn_name condition) (fn_name get_object_weight)
        ++ (if n <=? PY_SSIZE_T_MAX
            then [BarCreate (List.length (range n))] else [])))
  /\ greatest_counterexample gen_next condition get_object_weight n gname flag st
  = (Raise (if n <=? PY_SSIZE_T_MAX then ValueError else OverflowError),
     mkState (gen st) (pulls st)
       (out st
        ++ heading3_events "  Find the greatest" n gname
             (fn_name condition) (fn_name get_object_weight)
        ++ (if n <=? PY_SSIZE_T_MAX
            then [BarCreate (List.length (range n))] else []))).
Proof.
  unfold smallest_counterexample, greatest_counterexample, bind.
  rewrite !heading3_run.
  destruct (Z.leb_spec n PY_SSIZE_T_MAX) as [Hmax|Hmax].
  - rewrite !tqdm_range_run by assumption.
    cbn [emit gen pulls out]. unfold int_, lift.
    rewrite int_of_str_inf, int_of_str_minus_inf.
    now rewrite <- !app_assoc.
  - rewrite !tqdm_range_overflow by lia. cbn [gen pulls out].
    now rewrite !app_nil_r.
Qed.

(** C2, amended. On every input [smallest_counterexample] and
    [greatest_counterexample] print the heading and raise without a pull
    from the generator and without a call of the condition or of the
    weight, so that no value is ever returned: with [n < 2^63] the bar is
    created and [ValueError] is raised at [int("inf")] and [int("-inf")];
    with [n >= 2^63] the creation of the bar raises [OverflowError]
    before that. *)
Theorem extremal_search_raises n gname flag (st : St) :
  smallest_counterexample gen_next condition get_object_weight n gname flag st
  = (Raise (if n <=? PY_SSIZE_T_MAX then ValueError else OverflowError),
     mkState (gen st) (pulls st)
       (out st
        ++ heading3_events "  Find the smallest" n gname
             (fn_name condition) (fn_name get_object_weight)
        ++ (if n <=? PY_SSIZE_T_MAX
            then [BarCreate (List.length (range n))] else [])))
  /\ greatest_counterexample gen_next condition get_object_weight n gname flag st
  = (Raise (if n <=? PY_SSIZE_T_MAX then ValueError else OverflowError),
     mkState (gen st) (pulls st)
       (out st
        ++ heading3_events "  Find the greatest" n gname
             (fn_name condition) (fn_name get_object_weight)
        ++ (if n <=? PY_SSIZE_T_MAX
            then [BarCreate (List.length (range n))] else [])))
  /\ (forall r,
        fst (smallest_counterexample gen_next condition get_object_weight
               n gname flag st) <> Return r
        /\ fst (greatest_counterexample gen_next condition get_object_weight
                  n gname flag st) <> Return r).
Proof.
  destruct (extremal_search_raises_run n gname flag st) as [Hs Hg].
  repeat split; try assumption; rewrite ?Hs, ?Hg; discriminate.
Qed.

(** C9. Each of the four searches does the same with [show_progress]
    true and false; and with either value the heading is printed and the
    progress bar is created next, whenever its total fits ([n < 2^63];
    otherwise its creation raises, with either value too). *)
Theorem show_progress_not_consulted n gname (st : St) :
  (find_counterexample gen_next condition n gname true st
   = find_counterexample gen_next condition n gname false st
   /\ count_counterexamples gen_next condition n gname true st
      = count_counterexamples gen_next condition n gname false st
   /\ smallest_counterexample gen_next condition get_object_weight n gname true st
      = smallest_counterexample gen_next condition get_object_weight n gname false st
   /\ greatest_counterexample gen_next condition get_object_weight n gname true st
      = greatest_counterexample gen_next condition get_object_weight n gname false st)
  /\ (forall flag, exists f c s g,
        let bar more :=
          if n <=? PY_SSIZE_T_MAX
          then BarCreate (List.length (range n)) :: more else [] in
        out (snd (find_counterexample gen_next condition n gname flag st))
          = out st ++ heading2_events "  Find counterexample" n gname
                        (fn_name condition) ++ bar f
        /\ out (snd (count_counterexamples gen_next condition n gname flag st))
          = out st ++ heading2_events "  Count counterexamples" n gname
                        (fn_name condition) ++ bar c
        /\ out (snd (smallest_counterexample gen_next condition
                       get_object_weight n gname flag st))
          = out st ++ heading3_events "  Find the smallest" n gname
                        (fn_name condition) (fn_name get_object_weight)
                   ++ bar s
        /\ out (snd (greatest_counterexample gen_next condition
                       get_object_weight n gname flag st))
          = out st ++ heading3_events "  Find the greatest" n gname
                        (fn_name condition) (fn_name get_object_weight)
                   ++ bar g)
  /\ (forall flag,
        (if n <=? PY_SSIZE_T_MAX then True
         else fst (find_counterexample gen_next condition n gname flag st)
              = Raise OverflowError
              /\ fst (count_counterexamples gen_next condition n gname flag st)
                 = Raise OverflowError)).
Proof.
  split; [repeat split; reflexivity|]. split.
  - intros flag.
    destruct (find_counterexample_out condition n gname flag st) as [f Hf].
    destruct (count_counterexamples_out condition n gname flag st) as [c Hc].
    destruct (extremal_search_raises_run n gname flag st) as [Hs Hg].
    exists f, c, [], []. cbv zeta.
    rewrite Hf, Hc, Hs, Hg. cbn [snd out].
    destruct (n <=? PY_SSIZE_T_MAX); repeat split; reflexivity.
  - intros flag. destruct (Z.leb_spec n PY_SSIZE_T_MAX) as [Hmax|Hmax];
      [exact I|].
    unfold find_counterexample, count_counterexamples, bind.
    rewrite !heading2_run, !tqdm_range_overflow by lia. split; reflexivity.
Qed.
End Extremal.

End Properties.

(* ================================================================== *)
(** * The searches on concrete sources *)

(** ** Scenarios over the integers 0..9 with "is even" *)

Example find_counterexample_scenario :
  fst (find_counterexample list_next is_even 10 "integers" false
         (start (integers 10))) = Return (PyObj 1).
Proof. reflexivity. Qed.

Example count_counterexamples_scenario :
  fst (count_counterexamples list_next is_even 10 "integers" false
         (start (integers 10))) = Return 5.
Proof. reflexivity. Qed.

Example searches_when_always_true :
  fst (find_counterexample list_next always_true 5 "integers" false
         (start (integers 5))) = Return PyNone
  /\ fst (count_counterexamples list_next always_true 5 "integers" false
            (start (integers 5))) = Return 0.
Proof. split; reflexivity. Qed.

(** C1, at [n = 10] over 0..9 with "is even" and the identity weight: the
    failing values are 1, 3, 5, 7, 9 and the one of least weight is 1, but
    [smallest_counterexample] raises [ValueError]; and at [n = 5] with a
    condition that always holds it raises as well instead of returning
    [None]. *)
Theorem smallest_counterexample_scenario :
  counterexamples is_even (integers 10)
    = [PyObj 1; PyObj 3; PyObj 5; PyObj 7; PyObj 9]
  /\ fst (smallest_counterexample list_next is_even identity 10 "integers" false
            (start (integers 10))) = Raise ValueError
  /\ counterexamples always_true (integers 5) = []
  /\ fst (smallest_counterexample list_next always_true identity 5 "integers"
            false (start (integers 5))) = Raise ValueError.
Proof. repeat split; reflexivity. Qed.

(** C6, at [n = 10] over 0..9: [smallest_counterexample] and
    [greatest_counterexample] leave the generator untouched, with no pull
    made, where [count_counterexamples] makes the 10 pulls. *)
Theorem extremal_search_pulls_scenario :
  let st := start (integers 10) in
  pulls (snd (smallest_counterexample list_next is_even identity 10 "integers"
                false st)) = 0%nat
  /\ gen (snd (smallest_counterexample list_next is_even identity 10 "integers"
                 false st)) = integers 10
  /\ pulls (snd (greatest_counterexample list_next is_even identity 10 "integers"
                   false st)) = 0%nat
  /\ gen (snd (greatest_counterexample list_next is_even identity 10 "integers"
                 false st)) = integers 10
  /\ pulls (snd (count_counterexamples list_next is_even 10 "integers"
                   false st)) = 10%nat.
Proof. repeat split; reflexivity. Qed.

(** ** A source that never ends *)

Lemma endless_take k : forall i,
  exists l, take_gen endless_next k i = Some (l, i + Z.of_nat k).
Proof.
  induction k as [|k IH]; intros i.
  - exists []. cbn. f_equal. f_equal. lia.
  - destruct (IH (i + 1)) as [l Hl]. exists (PyObj i :: l).
    cbn [take_gen endless_next]. rewrite Hl. f_equal. f_equal. lia.
Qed.

(** ** A budget of [2^63] *)

(** C2 fails at [n = 2^63]: the two searches by weight do not reach the
    sentinel; the creation of the bar raises [OverflowError], not
    [ValueError], and no bar is shown. *)
Lemma extremal_search_overflow :
  let n := PY_SSIZE_T_MAX + 1 in
  let st := start (integers 10) in
  fst (smallest_counterexample list_next is_even identity n "integers" false st)
    = Raise OverflowError
  /\ fst (smallest_counterexample list_next is_even identity n "integers" false st)
     <> Raise ValueError
  /\ fst (greatest_counterexample list_next is_even identity n "integers" false st)
     = Raise OverflowError
  /\ out (snd (smallest_counterexample list_next is_even identity n "integers"
                 false st))
     = heading3_events "  Find the smallest" n "integers" "is_even" "identity".
Proof. repeat split; try reflexivity. discriminate. Qed.

(** C3 fails at [n = 2^63] over the endless source 0, 1, 2, ...: the
    source has [n] values, yet [count_counterexamples] returns no count;
    the creation of the bar raises [OverflowError] before the first pull. *)
Lemma count_counterexamples_overflow :
  let n := PY_SSIZE_T_MAX + 1 in
  let r := count_counterexamples endless_next is_even n "endless" false
             (start 0) in
  0 <= n
  /\ (exists l g', take_gen endless_next (Z.to_nat n) 0 = Some (l, g'))
  /\ fst r = Raise OverflowError
  /\ (forall k, fst r <> Return k)
  /\ pulls (snd r) = 0%nat.
Proof.
  intros n r. split; [unfold n, PY_SSIZE_T_MAX; lia|].
  split; [destruct (endless_take (Z.to_nat n) 0) as [l Hl]; eauto|].
  split; [reflexivity|]. split; [intros k; discriminate | reflexivity].
Qed.

(** ** [None] among the candidates *)

(** C4 fails on the source [None, 3] with [n = 2]: the first value pulled,
    [None], fails the condition, yet the search does not return there; it
    pulls once more and returns 3.  It fails as well at [n = 2^63] over the
    endless source 1, 2, 3, ...: the first value fails the condition, but
    nothing is pulled and [OverflowError] is raised. *)
Lemma find_counterexample_passes_over_None :
  let src := [PyNone; PyObj 3] in
  let r := find_counterexample list_next is_even 2 "source" false (start src) in
  let big := find_counterexample endless_next is_even (PY_SSIZE_T_MAX + 1)
               "endless" false (start 1) in
  take_gen list_next 2 src = Some (src, [])
  /\ is_even PyNone = false
  /\ fst r = Return (PyObj 3)
  /\ fst r <> Return PyNone
  /\ pulls (snd r) = 2%nat
  /\ (exists l g',
         take_gen endless_next (Z.to_nat (PY_SSIZE_T_MAX + 1)) 1 = Some (l, g'))
  /\ is_even (PyObj 1) = false
  /\ fst big = Raise OverflowError
  /\ pulls (snd big) = 0%nat.
Proof.
  intros src r big.
  split; [reflexivity|]. split; [reflexivity|]. split; [reflexivity|].
  split; [discriminate|]. split; [reflexivity|].
  split; [destruct (endless_take (Z.to_nat (PY_SSIZE_T_MAX + 1)) 1) as [l Hl];
          eauto|].
  repeat split.
Qed.

(** C8 fails on the same source: the unbatched scan of [None, 3] stops at
    [None], the search returns 3, and the loop over the single batch [2]
    gives still another answer than the loop over the plan of [n = 2].  At
    [n = 2^63] over the endless source 1, 2, 3, ... the scan would stop at
    1, and the search raises [OverflowError]. *)
Lemma find_counterexample_batches_observable :
  let src := [PyNone; PyObj 3] in
  let big := find_counterexample endless_next is_even (PY_SSIZE_T_MAX + 1)
               "endless" false (start 1) in
  take_gen list_next 2 src = Some (src, [])
  /\ unbatched_scan is_even src = PyNone
  /\ fst (find_counterexample list_next is_even 2 "source" false (start src))
     = Return (PyObj 3)
  /\ planned_pulls [2] = planned_pulls (listOfBatches 2)
  /\ fst (find_batches_loop list_next is_even [2] (start src)) = Return None
  /\ fst (find_batches_loop list_next is_even (listOfBatches 2) (start src))
     = Return (Some (PyObj 3))
  /\ endless_next 1 = Some (PyObj 1, 2)
  /\ is_even (PyObj 1) = false
  /\ fst big = Raise OverflowError.
Proof. repeat split; reflexivity. Qed.

(** ** A source shorter than the budget *)

(** C7 fails for [find_counterexample] on the three values 0, 1, 2 with
    [n = 10]: the source is exhausted after three pulls, but the search
    returns 1 after two and raises nothing.  With [n = 2^63] on the same
    source [count_counterexamples] raises [OverflowError] before any pull,
    not [StopIteration]. *)
Lemma find_counterexample_short_source_returns :
  let src := integers 3 in
  let r := find_counterexample list_next is_even 10 "integers" false (start src) in
  let big := count_counterexamples list_next is_even (PY_SSIZE_T_MAX + 1)
               "integers" false (start src) in
  take_gen list_next 3 src = Some (src, [])
  /\ list_next (A:=Z) [] = None
  /\ fst r = Return (PyObj 1)
  /\ fst r <> Raise StopIteration
  /\ pulls (snd r) = 2%nat
  /\ fst big = Raise OverflowError
  /\ fst big <> Raise StopIteration
  /\ pulls (snd big) = 0%nat.
Proof. repeat split; try reflexivity; discriminate. Qed.

(* ================================================================== *)
(** * The general statements at concrete inputs *)

Lemma listOfBatches_plan_205 :
  0 <= 205
  /\ listOfBatches 205 = repeat 3 5 ++ repeat 2 95
  /\ List.length (listOfBatches 205) = 100%nat
  /\ sum (listOfBatches 205) = 205.
Proof.
  split; [lia|].
  pose proof (listOfBatches_plan 205 ltac:(lia)) as (H1 & H2 & H3 & _).
  repeat split; assumption.
Defined.

Lemma fits_10 : 10 <= PY_SSIZE_T_MAX.
Proof. unfold PY_SSIZE_T_MAX. lia. Qed.

Lemma fits_2 : 2 <= PY_SSIZE_T_MAX.
Proof. unfold PY_SSIZE_T_MAX. lia. Qed.

Lemma fits_200 : 200 <= PY_SSIZE_T_MAX.
Proof. unfold PY_SSIZE_T_MAX. lia. Qed.

Lemma count_counterexamples_counts_0_9 :
  0 <= 10 /\ 10 <= PY_SSIZE_T_MAX
  /\ take_gen list_next (Z.to_nat 10) (integers 10) = Some (integers 10, [])
  /\ fst (count_counterexamples list_next is_even 10 "integers" false
            (start (integers 10))) = Return 5
  /\ fst (count_batches_loop list_next is_even [3; 0; 7] 0 (start (integers 10)))
     = Return 5.
Proof.
  split; [lia|]. split; [exact fits_10|]. split; [reflexivity|].
  pose proof (count_counterexamples_counts list_next is_even 10 "integers" false
                (start (integers 10)) (integers 10) [] ltac:(lia) fits_10
                eq_refl)
    as (H1 & _ & H3).
  split; [exact H1 | exact (H3 [3; 0; 7] eq_refl)].
Defined.

Lemma find_counterexample_first_None_3 :
  0 <= 2 /\ 2 <= PY_SSIZE_T_MAX
  /\ take_gen list_next (Z.to_nat 2) [PyNone; PyObj 3]
     = Some ([PyNone; PyObj 3], [])
  /\ (is_even PyNone = true \/ PyNone (A:=Z) = PyNone)
  /\ is_even (PyObj 3) = false
  /\ exists g1 printed,
      take_gen list_next 2 [PyNone; PyObj 3] = Some ([PyNone; PyObj 3], g1)
      /\ find_counterexample list_next is_even 2 "source" false
           (start [PyNone; PyObj 3])
         = (Return (PyObj 3), mkState g1 2 printed).
Proof.
  split; [lia|]. split; [exact fits_2|]. split; [reflexivity|].
  split; [now right|]. split; [reflexivity|].
  destruct (proj1 (find_counterexample_first list_next is_even 2 "source" false
                     (start [PyNone; PyObj 3]) [PyNone; PyObj 3] []
                     ltac:(lia) fits_2 eq_refl)
              [PyNone] (PyObj 3) [] eq_refl
              (Forall_cons PyNone (or_intror eq_refl) (Forall_nil _)) eq_refl
              ltac:(discriminate)) as (g1 & Ht & _ & Hreach).
  destruct (Hreach eq_refl) as [printed Hrun].
  exists g1, printed. split; [exact Ht | exact Hrun].
Defined.

Lemma find_counterexample_unbatched_0_9 :
  0 <= 10 /\ 10 <= PY_SSIZE_T_MAX
  /\ take_gen list_next (Z.to_nat 10) (integers 10) = Some (integers 10, [])
  /\ find (fun x => negb (is_even x)) (integers 10) <> Some PyNone
  /\ fst (find_counterexample list_next is_even 10 "integers" false
            (start (integers 10)))
     = Return (unbatched_scan is_even (integers 10))
  /\ fst (find_batches_loop list_next is_even [10] (start (integers 10)))
     = Return (Some (PyObj 1)).
Proof.
  split; [lia|]. split; [exact fits_10|].
  split; [reflexivity|]. split; [discriminate|].
  pose proof (find_counterexample_unbatched list_next is_even 10 "integers" false
                (start (integers 10)) (integers 10) [] ltac:(lia) fits_10
                eq_refl ltac:(discriminate)) as (H1 & H2).
  split; [exact H1 | exact (H2 [10] eq_refl)].
Defined.

Lemma find_counterexample_None_conflated_None_200 :
  let src := PyNone :: repeat (PyObj 0) 199 in
  is_even PyNone = false
  /\ find_batches_loop list_next is_even [2; 1]
       (start [PyObj 0; PyNone; PyObj 3])
     = find_batches_loop list_next is_even [1]
         (mkState [PyObj 3] 2 [BarUpdate 2])
  /\ take_gen list_next (Z.to_nat 200) src = Some (src, [])
  /\ exists g1,
      take_gen list_next 199 src = Some (firstn 199 src, g1)
      /\ find_counterexample list_next is_even 200 "source" false (start src)
         = (Return PyNone,
            mkState g1 199
              (heading2_events "  Find counterexample" 200 "source" "is_even"
               ++ [BarCreate (List.length (range 200))]
               ++ map BarUpdate (listOfBatches 200)
               ++ [BarClose; Print [IStr "  Result: no concluding."]])).
Proof.
  intros src. split; [reflexivity|].
  pose proof (find_counterexample_None_conflated list_next is_even 200 "source"
                false eq_refl) as (H1 & H2).
  split.
  - exact (H1 2 [1] (start [PyObj 0; PyNone; PyObj 3]) [PyObj 0] [PyObj 3]
             eq_refl (Forall_cons (PyObj 0) eq_refl (Forall_nil _))
             ltac:(cbn; lia)).
  - split; [reflexivity|].
    assert (Hmade : plan_pulls is_even (listOfBatches 200) src = 199%nat)
      by reflexivity.
    destruct (H2 (start src) src [] ltac:(lia) fits_200 eq_refl)
      as (g1 & Ht & _ & Hrun).
    { intros x [<-|Hx]; [reflexivity|].
      apply repeat_spec in Hx. subst x. discriminate. }
    rewrite Hmade in Ht, Hrun. exists g1. split; [exact Ht | exact Hrun].
Defined.

Lemma search_on_short_source_0_2 :
  10 <= PY_SSIZE_T_MAX
  /\ take_gen list_next 3 (integers 3) = Some (integers 3, [])
  /\ list_next (A:=Z) [] = None
  /\ (3 < Z.to_nat 10)%nat
  /\ (exists printed,
        count_counterexamples list_next is_even 10 "integers" false
          (start (integers 3))
        = (Raise StopIteration, mkState [] 4 printed))
  /\ (exists printed,
        find_counterexample list_next always_true 10 "integers" false
          (start (integers 3))
        = (Raise StopIteration, mkState [] 4 printed))
  /\ (exists g1 printed,
        take_gen list_next 2 (integers 3) = Some ([PyObj 0; PyObj 1], g1)
        /\ find_counterexample list_next is_even 10 "integers" false
             (start (integers 3))
           = (Return (PyObj 1), mkState g1 2 printed)).
Proof.
  split; [exact fits_10|].
  split; [reflexivity|]. split; [reflexivity|]. split; [cbn; lia|].
  split; [|split].
  - exact (proj1 (search_on_short_source list_next is_even 10 "integers" false
                    (start (integers 3)) 3%nat (integers 3) [] fits_10
                    eq_refl eq_refl ltac:(cbn; lia))).
  - apply (proj1 (proj2 (search_on_short_source list_next always_true 10
                           "integers" false (start (integers 3)) 3%nat
                           (integers 3) [] fits_10 eq_refl eq_refl
                           ltac:(cbn; lia)))).
    repeat constructor.
  - exact (proj2 (proj2 (search_on_short_source list_next is_even 10 "integers"
                           false (start (integers 3)) 3%nat (integers 3) []
                           fits_10 eq_refl eq_refl ltac:(cbn; lia)))
             [PyObj 0] (PyObj 1) [PyObj 2] eq_refl
             (Forall_cons (PyObj 0) eq_refl (Forall_nil _)) eq_refl
             ltac:(discriminate)).
Defined.

(** ** The builtin [int] on some strings *)

Example int_of_str_examples :
  int_of_str " -1_000 " = Return (-1000)
  /\ int_of_str "12" = Return 12
  /\ int_of_str "+7" = Return 7
  /\ int_of_str "" = Raise ValueError
  /\ int_of_str "1__0" = Raise ValueError
  /\ int_of_str "_1" = Raise ValueError
  /\ int_of_str "1_" = Raise ValueError
  /\ int_of_str "- 1" = Raise ValueError
  /\ int_of_str "1 2" = Raise ValueError
  /\ int_of_str "inf" = Raise ValueError
  /\ int_of_str "-inf" = Raise ValueError.
Proof. repeat split; reflexivity. Qed.

(* ================================================================== *)
(** * Further properties of the searches *)

(** ** The plan for any integer *)

Lemma listOfBatches_nonpos (n : Z) :
  n <= 0 -> Forall (fun b => b <= 0) (listOfBatches n).
Proof.
  intros Hn. rewrite listOfBatches_repeat.
  pose proof (Z.mod_pos_bound n 100 ltac:(lia)) as Hr.
  pose proof (Z.div_mod n 100 ltac:(lia)) as Hd.
  apply Forall_app; split; apply Forall_forall; intros x Hx.
  - destruct (Z.to_nat (n mod 100)) as [|k] eqn:Ek; [destruct Hx|].
    apply repeat_spec in Hx. lia.
  - apply repeat_spec in Hx. lia.
Qed.

Lemma planned_pulls_nonpos (bs : list Z) :
  Forall (fun b => b <= 0) bs -> planned_pulls bs = 0%nat.
Proof.
  induction 1 as [|b bs Hb _ IH]; [reflexivity|].
  change (planned_pulls (b :: bs)) with (Z.to_nat b + planned_pulls bs)%nat.
  rewrite IH. lia.
Qed.

Lemma planned_pulls_listOfBatches_any (n : Z) :
  planned_pulls (listOfBatches n) = Z.to_nat n.
Proof.
  destruct (Z.le_gt_cases 0 n) as [Hn|Hn].
  - now apply planned_pulls_listOfBatches.
  - rewrite planned_pulls_nonpos by (apply listOfBatches_nonpos; lia). lia.
Qed.

Lemma length_listOfBatches (n : Z) : List.length (listOfBatches n) = 100%nat.
Proof.
  pose proof (Z.mod_pos_bound n 100 ltac:(lia)) as Hr.
  rewrite listOfBatches_repeat, length_app, !repeat_length. lia.
Qed.

(** X1. For every integer [n], negative ones included, the plan has 100
    entries that sum to [n], and its loops ask for [max(n, 0)] pulls. *)
Theorem listOfBatches_any_integer (n : Z) :
  List.length (listOfBatches n) = 100%nat
  /\ sum (listOfBatches n) = n
  /\ planned_pulls (listOfBatches n) = Z.to_nat (Z.max 0 n).
Proof.
  split; [|split].
  - apply length_listOfBatches.
  - apply sum_listOfBatches.
  - rewrite planned_pulls_listOfBatches_any. lia.
Qed.

Section MoreProperties.

Context {A G : Type}.
Variable gen_next : G -> option (pyobj A * G).
Variable condition : callable (pyobj A) bool.

#[local] Abbreviation take := (take_gen gen_next).
#[local] Abbreviation St := (state A G).
#[local] Abbreviation holds := (fun x : pyobj A => condition x = true).
#[local] Abbreviation failures l :=
  (Z.of_nat (List.length (counterexamples condition l))).

(* ---------------------------------------------------------------- *)
(** ** A budget that is zero or negative *)

(** X2. With [n <= 0] no batch has a positive size: [find_counterexample]
    returns [None] and [count_counterexamples] returns 0 without a single
    call of [next], whatever the generator is, exhausted or not; each still
    prints its heading, 100 updates of the bar and its closing line. *)
Theorem searches_with_nonpositive_budget n gname flag (st : St) :
  n <= 0 ->
  find_counterexample gen_next condition n gname flag st
  = (Return PyNone,
     mkState (gen st) (pulls st)
       (out st
        ++ heading2_events "  Find counterexample" n gname (fn_name condition)
        ++ [BarCreate 0]
        ++ map BarUpdate (listOfBatches n)
        ++ [BarClose; Print [IStr "  Result: no concluding."]]))
  /\ count_counterexamples gen_next condition n gname flag st
  = (Return 0,
     mkState (gen st) (pulls st)
       (out st
        ++ heading2_events "  Count counterexamples" n gname (fn_name condition)
        ++ [BarCreate 0]
        ++ map BarUpdate (listOfBatches n)
        ++ [Print [IStr "  Result:"; IInt 0; IStr "counterexamples found!"]])).
Proof.
  intros Hn.
  assert (Hp : planned_pulls (listOfBatches n) = 0%nat)
    by (rewrite planned_pulls_listOfBatches_any; lia).
  assert (Hr : List.length (range n) = 0%nat).
  { unfold range. rewrite length_map, length_seq. lia. }
  assert (Hmax : n <= PY_SSIZE_T_MAX) by (unfold PY_SSIZE_T_MAX; lia).
  split.
  - unfold find_counterexample, bind.
    rewrite heading2_run, tqdm_range_run by assumption.
    cbn [emit gen pulls out].
    erewrite find_batches_loop_all_true with (l := []) (g' := gen st);
      [| cbn [gen]; rewrite Hp; reflexivity | constructor].
    unfold print, emit, ret. cbn [gen pulls out].
    rewrite Hp, Hr, Nat.add_0_r, <- !app_assoc. reflexivity.
  - unfold count_counterexamples, bind.
    rewrite heading2_run, tqdm_range_run by assumption.
    cbn [emit gen pulls out].
    erewrite count_batches_loop_run with (l := []) (g' := gen st);
      [| cbn [gen]; rewrite Hp; reflexivity].
    unfold print, emit, ret. cbn [gen pulls out counterexamples filter List.length].
    rewrite Hp, Hr, Nat.add_0_r, <- !app_assoc. reflexivity.
Qed.

(* ---------------------------------------------------------------- *)
(** ** No search pulls more than its budget *)

Lemma pulls_within_count_compute_batch_loop k : forall c,
  pulls_within (count_compute_batch_loop gen_next condition k c) k.
Proof.
  induction k as [|k IH]; intros c; cbn [count_compute_batch_loop].
  - apply pulls_within_ret.
  - change (S k) with (1 + k)%nat.
    apply pulls_within_bind; [apply pulls_within_next|].
    intros x. destruct (negb (condition x)); apply IH.
Qed.

Lemma pulls_within_count_batches_loop bs : forall c,
  pulls_within (count_batches_loop gen_next condition bs c) (planned_pulls bs).
Proof.
  induction bs as [|b bs IH]; intros c; cbn [count_batches_loop].
  - apply pulls_within_ret.
  - change (planned_pulls (b :: bs)) with (Z.to_nat b + planned_pulls bs)%nat.
    apply pulls_within_bind; [apply pulls_within_count_compute_batch_loop|].
    intros r. change (planned_pulls bs) with (0 + planned_pulls bs)%nat.
    apply pulls_within_bind; [apply pulls_within_emit | intros _; apply IH].
Qed.

(** X3. Whatever the integer [n], the generator and the condition, and
    whether the search returns or raises, [find_counterexample] and
    [count_counterexamples] call [next] at most [max(n, 0)] times. *)
Theorem searches_never_overpull n gname flag (st : St) :
  (pulls st
   <= pulls (snd (find_counterexample gen_next condition n gname flag st))
   <= pulls st + Z.to_nat n)%nat
  /\ (pulls st
      <= pulls (snd (count_counterexamples gen_next condition n gname flag st))
      <= pulls st + Z.to_nat n)%nat.
Proof.
  split.
  - unfold find_counterexample, bind. rewrite heading2_run.
    destruct (Z.le_gt_cases n PY_SSIZE_T_MAX) as [Hmax|Hmax];
      [|rewrite tqdm_range_overflow by lia; cbn [snd pulls]; lia].
    rewrite tqdm_range_run by assumption.
    cbn [emit gen pulls out].
    match goal with
    | |- context [find_batches_loop _ _ _ ?s] =>
        pose proof (pulls_within_find_batches_loop gen_next condition
                      (listOfBatches n) s) as Hp;
        destruct (find_batches_loop gen_next condition (listOfBatches n) s)
          as [[[r|]|e] st']
    end; rewrite planned_pulls_listOfBatches_any in Hp;
      unfold print, emit, ret; cbn [gen pulls out snd] in *; lia.
  - unfold count_counterexamples, bind. rewrite heading2_run.
    destruct (Z.le_gt_cases n PY_SSIZE_T_MAX) as [Hmax|Hmax];
      [|rewrite tqdm_range_overflow by lia; cbn [snd pulls]; lia].
    rewrite tqdm_range_run by assumption.
    cbn [emit gen pulls out].
    match goal with
    | |- context [count_batches_loop _ _ _ ?c ?s] =>
        pose proof (pulls_within_count_batches_loop (listOfBatches n) c s) as Hp;
        destruct (count_batches_loop gen_next condition (listOfBatches n) c s)
          as [[r|e] st']
    end; rewrite planned_pulls_listOfBatches_any in Hp;
      unfold print, emit, ret; cbn [gen pulls out snd] in *; lia.
Qed.

(* ---------------------------------------------------------------- *)
(** ** The progress bar and the closing message *)

Lemma emits_only_ret {R} P (r : R) : emits_only (A:=A) (G:=G) P (ret r).
Proof. intros st. exists []. simpl. rewrite app_nil_r. auto. Qed.

Lemma emits_only_emit (P : event A -> Prop) e :
  P e -> emits_only (A:=A) (G:=G) P (emit e).
Proof. intros He st. exists [e]. split; [reflexivity | auto]. Qed.

Lemma emits_only_next P : emits_only P (next_ gen_next).
Proof.
  intros st. exists []. unfold next_.
  destruct (gen_next (gen st)) as [[x g]|]; simpl; rewrite app_nil_r; auto.
Qed.

Lemma emits_only_bind {R S} P (m : M (A:=A) (G:=G) R) (f : R -> M S) :
  emits_only P m -> (forall r, emits_only P (f r)) -> emits_only P (bind m f).
Proof.
  intros Hm Hf st. unfold bind. destruct (Hm st) as (m1 & H1 & P1).
  destruct (m st) as [[r|e] st'] eqn:E; simpl in *.
  - destruct (Hf r st') as (m2 & H2 & P2). exists (m1 ++ m2).
    rewrite H2, H1, app_assoc. split; [reflexivity|].
    apply Forall_app. auto.
  - exists m1. auto.
Qed.

Lemma emits_only_tqdm_range (P : event A -> Prop) n :
  (forall total, P (BarCreate total)) ->
  emits_only (A:=A) (G:=G) P (tqdm_range n).
Proof.
  intros HP st. unfold tqdm_range, len_range, bind, lift.
  destruct (n >? PY_SSIZE_T_MAX).
  - exists []. cbn. rewrite app_nil_r. auto.
  - exists [BarCreate (List.length (range n))]. cbn. auto.
Qed.

Lemma emits_only_count_compute_batch_loop P k : forall c,
  emits_only P (count_compute_batch_loop gen_next condition k c).
Proof.
  induction k as [|k IH]; intros c; cbn [count_compute_batch_loop].
  - apply emits_only_ret.
  - apply emits_only_bind; [apply emits_only_next|].
    intros x. destruct (negb (condition x)); apply IH.
Qed.

Lemma emits_only_count_batches_loop bs : forall c,
  emits_only (fun e => e <> BarClose)
    (count_batches_loop gen_next condition bs c).
Proof.
  induction bs as [|b bs IH]; intros c; cbn [count_batches_loop].
  - apply emits_only_ret.
  - apply emits_only_bind; [apply emits_only_count_compute_batch_loop|].
    intros r. apply emits_only_bind; [|intros _; apply IH].
    apply emits_only_emit. discriminate.
Qed.

(** X4. [count_counterexamples] never closes its progress bar: on every
    input, whether it returns or raises, nothing it adds to the output is
    the closing of the bar. *)
Theorem count_counterexamples_never_closes_bar n gname flag :
  emits_only (fun e => e <> BarClose)
    (count_counterexamples gen_next condition n gname flag).
Proof.
  unfold count_counterexamples, heading2, print.
  repeat first [ apply emits_only_tqdm_range; intros ?; discriminate
               | apply emits_only_bind; [|intros ?]
               | apply emits_only_emit; discriminate
               | apply emits_only_count_batches_loop
               | apply emits_only_ret ].
Qed.

(** A batch hands over [None] or a value that fails the condition. *)
Lemma find_compute_batch_loop_returns k : forall (st : St) c st',
  find_compute_batch_loop gen_next condition k st = (Return c, st') ->
  c = PyNone \/ condition c = false.
Proof.
  induction k as [|k IH]; intros st c st'; cbn [find_compute_batch_loop].
  - unfold ret. intros H; inversion H. now left.
  - unfold bind, next_. destruct (gen_next (gen st)) as [[x g]|];
      [|discriminate].
    destruct (condition x) eqn:Ec; cbn [negb].
    + apply IH.
    + unfold ret. intros H; inversion H; subst. now right.
Qed.

Lemma find_batches_loop_returns bs : forall (st : St) c st',
  find_batches_loop gen_next condition bs st = (Return (Some c), st') ->
  c <> PyNone /\ condition c = false
  /\ exists printed,
      out st' = printed ++ [BarClose;
                            Print [IStr "  Result: found counterexample!"];
                            Print [IStr "  -->"; IObj c]].
Proof.
  induction bs as [|b bs IH]; intros st c st'; cbn [find_batches_loop].
  - unfold ret. discriminate.
  - unfold bind, find_compute_batch.
    destruct (find_compute_batch_loop gen_next condition (Z.to_nat b) st)
      as [[r|e] st1] eqn:E; [|discriminate].
    cbn [emit]. destruct r as [|a]; cbn [is_not_None].
    + apply IH.
    + unfold print, emit, ret. cbn [gen pulls out].
      intros H; inversion H; subst.
      destruct (find_compute_batch_loop_returns _ _ _ _ E) as [Hc|Hc];
        [discriminate|].
      split; [discriminate|]. split; [exact Hc|].
      exists (out st1 ++ [BarUpdate b]). cbn [out].
      now rewrite <- !app_assoc.
Qed.

(** X5. Whenever [find_counterexample] returns, on any generator: either
    it returns [None] and its last line is "no concluding", or it returns a
    value other than [None] that fails the condition and its last line
    shows that value; either way the bar was closed just before. *)
Theorem find_counterexample_result_and_message n gname flag (st : St) r st' :
  find_counterexample gen_next condition n gname flag st = (Return r, st') ->
  (r = PyNone
   /\ exists printed,
       out st' = printed ++ [BarClose; Print [IStr "  Result: no concluding."]])
  \/ (r <> PyNone /\ condition r = false
      /\ exists printed,
          out st' = printed ++ [BarClose;
                                Print [IStr "  Result: found counterexample!"];
                                Print [IStr "  -->"; IObj r]]).
Proof.
  unfold find_counterexample, bind. rewrite heading2_run.
  destruct (Z.le_gt_cases n PY_SSIZE_T_MAX) as [Hmax|Hmax];
    [|rewrite tqdm_range_overflow by lia; discriminate].
  rewrite tqdm_range_run by assumption.
  cbn [emit gen pulls out].
  match goal with
  | |- context [find_batches_loop _ _ _ ?s] =>
      destruct (find_batches_loop gen_next condition (listOfBatches n) s)
        as [[[c|]|e] st1] eqn:E
  end; [| |discriminate].
  - unfold ret. intros H; inversion H; subst. right.
    exact (find_batches_loop_returns _ _ _ _ E).
  - unfold print, emit, ret. cbn [gen pulls out].
    intros H; inversion H; subst. left. split; [reflexivity|].
    exists (out st1). cbn [out]. now rewrite <- app_assoc.
Qed.

(* ---------------------------------------------------------------- *)
(** ** Where a search leaves the generator and the bar *)

Lemma Forall_firstn {T} (P : T -> Prop) k : forall l,
  Forall P l -> Forall P (firstn k l).
Proof.
  induction k as [|k IH]; intros l H; [constructor|].
  destruct H as [|a l Ha Hl]; [constructor|]. simpl. constructor; auto.
Qed.

(** The loop stops in batch [i]: the bar has been advanced by the batches
    up to [i], all of batch [i] included. *)
Lemma find_batches_loop_found_trace bs : forall (st : St) l1 c g1,
  take (S (List.length l1)) (gen st) = Some (l1 ++ [c], g1) ->
  Forall holds l1 -> condition c = false -> is_not_None c = true ->
  (List.length l1 < planned_pulls bs)%nat ->
  exists i,
    (i < List.length bs)%nat
    /\ (planned_pulls (firstn i bs) <= List.length l1
        < planned_pulls (firstn (S i) bs))%nat
    /\ find_batches_loop gen_next condition bs st =
       (Return (Some c),
        mkState g1 (pulls st + S (List.length l1))
          (out st ++ map BarUpdate (firstn (S i) bs)
           ++ [BarClose; Print [IStr "  Result: found counterexample!"];
               Print [IStr "  -->"; IObj c]])).
Proof.
  induction bs as [|b bs IH]; intros st l1 c g1 H Hall Hc Hnn Hlt;
    [simpl in Hlt; lia|].
  change (planned_pulls (b :: bs))
    with (Z.to_nat b + planned_pulls bs)%nat in Hlt.
  cbn [find_batches_loop]. unfold bind, find_compute_batch.
  destruct (Nat.le_gt_cases (Z.to_nat b) (List.length l1)) as [Hle|Hgt].
  - assert (Hle' : (Z.to_nat b <= S (List.length l1))%nat) by lia.
    destruct (take_gen_le gen_next _ _ _ _ _ Hle' H) as (g2 & H1 & H2).
    rewrite firstn_app in H1. rewrite skipn_app in H2.
    replace (Z.to_nat b - List.length l1)%nat with 0%nat in * by lia.
    cbn [firstn skipn] in *. rewrite app_nil_r in H1.
    rewrite <- (firstn_skipn (Z.to_nat b) l1) in Hall.
    apply Forall_app in Hall. destruct Hall as [Ha Hb].
    rewrite (find_compute_batch_loop_all_true gen_next condition _ _ _ _ H1 Ha).
    cbn [emit gen pulls out is_not_None].
    replace (S (List.length l1) - Z.to_nat b)%nat
      with (S (List.length (skipn (Z.to_nat b) l1))) in H2
      by (rewrite length_skipn; lia).
    edestruct (IH (mkState g2 (pulls st + Z.to_nat b)
                           (out st ++ [BarUpdate b]))) as (i & Hi & Hb' & Hrun);
      [cbn [gen]; exact H2 | exact Hb | exact Hc | exact Hnn
      | rewrite length_skipn; lia |].
    rewrite length_skipn in *.
    exists (S i). split; [simpl; lia|]. split.
    + rewrite !firstn_cons.
      change (planned_pulls (b :: ?l)) with (Z.to_nat b + planned_pulls l)%nat.
      cbn [firstn] in Hb' |- *. lia.
    + rewrite Hrun. cbn [gen pulls out firstn map].
      rewrite <- !app_assoc. cbn [app]. outcome_eq.
  - exists 0%nat. split; [simpl; lia|]. split.
    + cbn [firstn planned_pulls fold_right]. lia.
    + rewrite (find_compute_batch_loop_found gen_next condition
                 _ _ _ _ _ H Hall Hc Hgt).
      cbn [emit gen pulls out]. rewrite Hnn.
      unfold print, emit, ret. cbn [gen pulls out firstn map].
      rewrite <- !app_assoc. reflexivity.
Qed.

(** X8. With [n < 2^63], [find_counterexample] needs the source only up to
    the first value [c] that fails the condition (with [c] not [None],
    [l1] the values before it, fewer than [n]): it returns [c] with the
    generator left just after [c], also when the source has fewer than [n]
    values.  The bar has then been updated once for each batch up to the
    batch [i] in which [c] falls, with the whole size of each, that of
    batch [i] included: by at least the number of pulls made. *)
Theorem find_counterexample_stops_at_first_failure
    n gname flag (st : St) l1 c g1 :
  n <= PY_SSIZE_T_MAX ->
  take (S (List.length l1)) (gen st) = Some (l1 ++ [c], g1) ->
  Forall holds l1 -> condition c = false -> c <> PyNone ->
  (List.length l1 < Z.to_nat n)%nat ->
  exists i,
    (i < 100)%nat
    /\ sum (firstn i (listOfBatches n)) <= Z.of_nat (List.length l1)
       < sum (firstn (S i) (listOfBatches n))
    /\ find_counterexample gen_next condition n gname flag st =
       (Return c,
        mkState g1 (pulls st + S (List.length l1))
          (out st
           ++ heading2_events "  Find counterexample" n gname (fn_name condition)
           ++ [BarCreate (List.length (range n))]
           ++ map BarUpdate (firstn (S i) (listOfBatches n))
           ++ [BarClose; Print [IStr "  Result: found counterexample!"];
               Print [IStr "  -->"; IObj c]])).
Proof.
  intros Hmax H Hall Hc Hne Hlt.
  assert (Hn : 0 <= n) by lia.
  assert (Hnn : is_not_None c = true)
    by (destruct c; [congruence | reflexivity]).
  rewrite <- (planned_pulls_listOfBatches n Hn) in Hlt.
  destruct (find_batches_loop_found_trace (listOfBatches n)
              (mkState (gen st) (pulls st)
                 ((out st ++ heading2_events "  Find counterexample" n gname
                               (fn_name condition))
                  ++ [BarCreate (List.length (range n))]))
              l1 c g1 H Hall Hc Hnn Hlt) as (i & Hi & Hb & Hrun).
  exists i. split.
  { rewrite length_listOfBatches in Hi. exact Hi. }
  split.
  - pose proof (planned_pulls_sum (firstn (S i) (listOfBatches n))
                  (Forall_firstn _ _ _ (listOfBatches_nonneg n Hn))) as Hs.
    pose proof (sum_nonneg (firstn (S i) (listOfBatches n))
                  (Forall_firstn _ _ _ (listOfBatches_nonneg n Hn))).
    pose proof (planned_pulls_sum (firstn i (listOfBatches n))
                  (Forall_firstn _ _ _ (listOfBatches_nonneg n Hn))) as Hs'.
    pose proof (sum_nonneg (firstn i (listOfBatches n))
                  (Forall_firstn _ _ _ (listOfBatches_nonneg n Hn))).
    lia.
  - unfold find_counterexample, bind.
    rewrite heading2_run, tqdm_range_run by assumption.
    cbn [emit gen pulls out]. rewrite Hrun. unfold ret.
    cbn [gen pulls out]. rewrite <- !app_assoc. reflexivity.
Qed.

(** The whole output of a search in which every value passes. *)
Lemma find_counterexample_all_true_run n gname flag (st : St) l g' :
  0 <= n -> n <= PY_SSIZE_T_MAX ->
  take (Z.to_nat n) (gen st) = Some (l, g') -> Forall holds l ->
  find_counterexample gen_next condition n gname flag st
  = (Return PyNone,
     mkState g' (pulls st + Z.to_nat n)
       (out st
        ++ heading2_events "  Find counterexample" n gname (fn_name condition)
        ++ [BarCreate (Z.to_nat n)]
        ++ map BarUpdate (listOfBatches n)
        ++ [BarClose; Print [IStr "  Result: no concluding."]])).
Proof.
  intros Hn Hmax H Hall.
  assert (Hr : List.length (range n) = Z.to_nat n).
  { unfold range. now rewrite length_map, length_seq. }
  unfold find_counterexample, bind.
  rewrite heading2_run, tqdm_range_run by assumption.
  cbn [emit gen pulls out].
  rewrite <- (planned_pulls_listOfBatches n Hn) in H.
  erewrite find_batches_loop_all_true by (cbn [gen]; eassumption).
  unfold print, emit, ret. cbn [gen pulls out].
  rewrite (planned_pulls_listOfBatches n Hn), Hr, <- !app_assoc.
  reflexivity.
Qed.

(** X9. A search that uses its whole budget: with [0 <= n < 2^63] and a
    source that has [n] values, [count_counterexamples] leaves the generator just
    after the [n]-th value and prints the heading, one update of the bar
    per batch of the plan and the result line; [find_counterexample] does
    the same when all [n] values satisfy the condition, and closes the
    bar before its last line. *)
Theorem searches_that_use_the_whole_budget n gname flag (st : St) l g' :
  0 <= n -> n <= PY_SSIZE_T_MAX ->
  take (Z.to_nat n) (gen st) = Some (l, g') ->
  count_counterexamples gen_next condition n gname flag st
  = (Return (failures l),
     mkState g' (pulls st + Z.to_nat n)
       (out st
        ++ heading2_events "  Count counterexamples" n gname (fn_name condition)
        ++ [BarCreate (Z.to_nat n)]
        ++ map BarUpdate (listOfBatches n)
        ++ [Print [IStr "  Result:"; IInt (failures l);
                   IStr "counterexamples found!"]]))
  /\ (Forall holds l ->
      find_counterexample gen_next condition n gname flag st
      = (Return PyNone,
         mkState g' (pulls st + Z.to_nat n)
           (out st
            ++ heading2_events "  Find counterexample" n gname (fn_name condition)
            ++ [BarCreate (Z.to_nat n)]
            ++ map BarUpdate (listOfBatches n)
            ++ [BarClose; Print [IStr "  Result: no concluding."]]))).
Proof.
  intros Hn Hmax H.
  assert (Hr : List.length (range n) = Z.to_nat n).
  { unfold range. now rewrite length_map, length_seq. }
  split.
  - rewrite (count_counterexamples_run gen_next condition n gname flag st l g'
               Hn Hmax H).
    now rewrite Hr.
  - intros Hall. now apply find_counterexample_all_true_run with (l := l).
Qed.

(* ---------------------------------------------------------------- *)
(** ** Two searches on the same generator *)

(** X6. Two calls of [count_counterexamples] one after the other on the
    same generator, with budgets [n1 >= 0] and [n2 >= 0] whose sum is less
    than [2^63], over a source of [n1 + n2] values: the second goes on where
    the first stopped, and the two counts add up to the count that one
    call with budget [n1 + n2] returns. *)
Theorem count_counterexamples_compose n1 n2 gname flag (st : St) l g' :
  0 <= n1 -> 0 <= n2 -> n1 + n2 <= PY_SSIZE_T_MAX ->
  take (Z.to_nat (n1 + n2)) (gen st) = Some (l, g') ->
  let both :=
    bind (count_counterexamples gen_next condition n1 gname flag) (fun a =>
    bind (count_counterexamples gen_next condition n2 gname flag) (fun b =>
    ret (a + b))) in
  fst (both st) = Return (failures l)
  /\ fst (both st)
     = fst (count_counterexamples gen_next condition (n1 + n2) gname flag st)
  /\ gen (snd (both st)) = g'
  /\ pulls (snd (both st)) = (pulls st + Z.to_nat (n1 + n2))%nat.
Proof.
  intros Hn1 Hn2 Hmax H both.
  assert (Hmax1 : n1 <= PY_SSIZE_T_MAX) by lia.
  assert (Hmax2 : n2 <= PY_SSIZE_T_MAX) by lia.
  assert (Hrun : exists printed,
             both st = (Return (failures l),
                        mkState g' (pulls st + Z.to_nat (n1 + n2)) printed)).
  { rewrite Z2Nat.inj_add in H by assumption.
    destruct (take_gen_split gen_next _ _ _ _ _ H) as (g1 & H1 & H2).
    unfold both, bind.
    rewrite (count_counterexamples_run gen_next condition n1 gname flag st
               _ _ Hn1 Hmax1 H1).
    erewrite (count_counterexamples_run gen_next condition n2 gname flag)
      by (try assumption; cbn [gen]; exact H2).
    unfold ret. cbn [gen pulls out]. eexists. outcome_eq.
    rewrite <- (firstn_skipn (Z.to_nat n1) l) at 3.
    rewrite (failures_app condition). reflexivity. }
  destruct Hrun as [p Hp]. rewrite Hp. cbn [fst snd gen pulls].
  repeat split.
  now rewrite (count_counterexamples_run gen_next condition (n1 + n2) gname flag
                 st l g' ltac:(lia) Hmax H).
Qed.

(** X7. After [find_counterexample] has returned a value, a second call on
    the same generator resumes just after that value: with [l1] and [l2]
    two runs of values that satisfy the condition, each followed by a
    failing value that is not [None], and budgets less than [2^63] that
    exceed the lengths of the runs, the first call returns [c1] and the
    second returns [c2]. *)
Theorem find_counterexample_resumes n1 n2 gname flag (st : St) l1 c1 l2 c2 g2 :
  n1 <= PY_SSIZE_T_MAX -> n2 <= PY_SSIZE_T_MAX ->
  take (S (List.length l1) + S (List.length l2)) (gen st)
    = Some ((l1 ++ [c1]) ++ (l2 ++ [c2]), g2) ->
  Forall holds l1 -> Forall holds l2 ->
  condition c1 = false -> condition c2 = false ->
  c1 <> PyNone -> c2 <> PyNone ->
  (List.length l1 < Z.to_nat n1)%nat -> (List.length l2 < Z.to_nat n2)%nat ->
  exists printed,
    bind (find_counterexample gen_next condition n1 gname flag) (fun first =>
    bind (find_counterexample gen_next condition n2 gname flag) (fun second =>
    ret (first, second))) st
    = (Return (c1, c2),
       mkState g2 (pulls st + S (List.length l1) + S (List.length l2)) printed).
Proof.
  intros Hmax1 Hmax2 H Hall1 Hall2 Hc1 Hc2 Hn1 Hn2 Hlt1 Hlt2.
  destruct (take_gen_split gen_next _ _ _ _ _ H) as (g1 & H1 & H2).
  replace (S (List.length l1)) with (List.length (l1 ++ [c1])) in H1, H2
    by (rewrite length_app; simpl; lia).
  rewrite firstn_length_app in H1. rewrite skipn_length_app in H2.
  rewrite length_app in H1. cbn [List.length] in H1.
  replace (List.length l1 + 1)%nat with (S (List.length l1)) in H1 by lia.
  assert (Hnn1 : is_not_None c1 = true)
    by (destruct c1; [congruence | reflexivity]).
  assert (Hnn2 : is_not_None c2 = true)
    by (destruct c2; [congruence | reflexivity]).
  destruct (find_counterexample_found gen_next condition n1 gname flag st
              l1 c1 g1 Hmax1 H1 Hall1 Hc1 Hnn1 Hlt1) as [p1 Hp1].
  destruct (find_counterexample_found gen_next condition n2 gname flag
              (mkState g1 (pulls st + S (List.length l1)) p1)
              l2 c2 g2 Hmax2 H2 Hall2 Hc2 Hnn2 Hlt2) as [p2 Hp2].
  unfold bind. rewrite Hp1, Hp2. unfold ret. cbn [pulls]. eauto.
Qed.

(* ---------------------------------------------------------------- *)
(** ** The loops of the two searches by weight *)

Section ExtremalLoops.
Variable get_object_weight : callable (pyobj A) Z.

#[local] Abbreviation weight := (call get_object_weight).

(** X10. The loop of [compute_batch] in [smallest_counterexample], run
    over [k] values [l] from a best pair [(c0, w0)]: it pulls the [k]
    values and prints nothing; the weight it ends with is at most [w0] and
    at most the weight of every failing value of [l]; and either no failing
    value weighs less than [w0] and the pair is unchanged, or the pair is a
    failing value [c] of [l] with its weight, lighter than [w0] and
    strictly lighter than every failing value before it (the first of the
    lightest is kept). *)
Theorem smallest_compute_batch_loop_selects k :
  forall c0 w0 (st : St) l g',
  take k (gen st) = Some (l, g') ->
  exists c w,
    smallest_compute_batch_loop gen_next condition get_object_weight k c0 w0 st
    = (Return (c, w), mkState g' (pulls st + k) (out st))
    /\ w <= w0
    /\ (forall x, In x l -> condition x = false -> w <= weight x)
    /\ ((c = c0 /\ w = w0)
        \/ exists l1 l2,
            l = l1 ++ c :: l2 /\ condition c = false /\ weight c = w /\ w < w0
            /\ forall x, In x l1 -> condition x = false -> w < weight x).
Proof.
  induction k as [|k IH]; intros c0 w0 st l g' H.
  - simpl in H. inversion H; subst. exists c0, w0.
    split; [simpl; unfold ret; destruct st; simpl; outcome_eq|].
    split; [lia|]. split; [intros x []|]. now left.
  - destruct (take_gen_S gen_next _ _ _ _ H) as (x & g1 & l' & E & E1 & ->).
    cbn [smallest_compute_batch_loop]. unfold bind, next_. rewrite E.
    destruct (condition x) eqn:Ec; cbn [negb].
    + destruct (IH c0 w0 (mkState g1 (S (pulls st)) (out st)) l' g' E1)
        as (c & w & Hrun & Hle & Hmin & Hsel).
      exists c, w. rewrite Hrun. cbn [gen pulls out].
      split; [outcome_eq|]. split; [exact Hle|]. split.
      * intros y [<-|Hy] Hy'; [congruence | auto].
      * destruct Hsel as [Hsel | (l1 & l2 & -> & Hc & Hw & Hlt & Hbefore)];
          [now left | right].
        exists (x :: l1), l2. (split; [reflexivity|]); (split; [assumption|]); (split; [try assumption; reflexivity|]); (split; [lia|]).
        intros y [<-|Hy] Hy'; [congruence | auto].
    + destruct (Z.ltb_spec (weight x) w0) as [Hx|Hx].
      * destruct (IH x (weight x) (mkState g1 (S (pulls st)) (out st)) l' g' E1)
          as (c & w & Hrun & Hle & Hmin & Hsel).
        exists c, w. rewrite Hrun. cbn [gen pulls out].
        split; [outcome_eq|]. split; [lia|]. split.
        -- intros y [<-|Hy] Hy'; [exact Hle | auto].
        -- right.
           destruct Hsel as [[-> ->] | (l1 & l2 & -> & Hc & Hw & Hlt & Hbefore)].
           ++ exists [], l'. (split; [reflexivity|]); (split; [assumption|]); (split; [try assumption; reflexivity|]); (split; [lia|]). intros y [].
           ++ exists (x :: l1), l2. (split; [reflexivity|]); (split; [assumption|]); (split; [try assumption; reflexivity|]); (split; [lia|]).
              intros y [<-|Hy] Hy'; [exact Hlt | auto].
      * destruct (IH c0 w0 (mkState g1 (S (pulls st)) (out st)) l' g' E1)
          as (c & w & Hrun & Hle & Hmin & Hsel).
        exists c, w. rewrite Hrun. cbn [gen pulls out].
        split; [outcome_eq|]. split; [exact Hle|]. split.
        -- intros y [<-|Hy] Hy'; [lia | auto].
        -- destruct Hsel as [Hsel | (l1 & l2 & -> & Hc & Hw & Hlt & Hbefore)];
             [now left | right].
           exists (x :: l1), l2. (split; [reflexivity|]); (split; [assumption|]); (split; [try assumption; reflexivity|]); (split; [lia|]).
           intros y [<-|Hy] Hy'; [lia | auto].
Qed.

(** X11. The loop of [compute_batch] in [greatest_counterexample], from a
    best pair [(c0, w0)]: the same with the order reversed; the first of
    the heaviest failing values is kept. *)
Theorem greatest_compute_batch_loop_selects k :
  forall c0 w0 (st : St) l g',
  take k (gen st) = Some (l, g') ->
  exists c w,
    greatest_compute_batch_loop gen_next condition get_object_weight k c0 w0 st
    = (Return (c, w), mkState g' (pulls st + k) (out st))
    /\ w0 <= w
    /\ (forall x, In x l -> condition x = false -> weight x <= w)
    /\ ((c = c0 /\ w = w0)
        \/ exists l1 l2,
            l = l1 ++ c :: l2 /\ condition c = false /\ weight c = w /\ w0 < w
            /\ forall x, In x l1 -> condition x = false -> weight x < w).
Proof.
  induction k as [|k IH]; intros c0 w0 st l g' H.
  - simpl in H. inversion H; subst. exists c0, w0.
    split; [simpl; unfold ret; destruct st; simpl; outcome_eq|].
    split; [lia|]. split; [intros x []|]. now left.
  - destruct (take_gen_S gen_next _ _ _ _ H) as (x & g1 & l' & E & E1 & ->).
    cbn [greatest_compute_batch_loop]. unfold bind, next_. rewrite E.
    destruct (condition x) eqn:Ec; cbn [negb].
    + destruct (IH c0 w0 (mkState g1 (S (pulls st)) (out st)) l' g' E1)
        as (c & w & Hrun & Hle & Hmax & Hsel).
      exists c, w. rewrite Hrun. cbn [gen pulls out].
      split; [outcome_eq|]. split; [exact Hle|]. split.
      * intros y [<-|Hy] Hy'; [congruence | auto].
      * destruct Hsel as [Hsel | (l1 & l2 & -> & Hc & Hw & Hlt & Hbefore)];
          [now left | right].
        exists (x :: l1), l2. (split; [reflexivity|]); (split; [assumption|]); (split; [try assumption; reflexivity|]); (split; [lia|]).
        intros y [<-|Hy] Hy'; [congruence | auto].
    + destruct (Z.gtb_spec (weight x) w0) as [Hx|Hx].
      * destruct (IH x (weight x) (mkState g1 (S (pulls st)) (out st)) l' g' E1)
          as (c & w & Hrun & Hle & Hmax & Hsel).
        exists c, w. rewrite Hrun. cbn [gen pulls out].
        split; [outcome_eq|]. split; [lia|]. split.
        -- intros y [<-|Hy] Hy'; [exact Hle | auto].
        -- right.
           destruct Hsel as [[-> ->] | (l1 & l2 & -> & Hc & Hw & Hlt & Hbefore)].
           ++ exists [], l'. (split; [reflexivity|]); (split; [assumption|]); (split; [try assumption; reflexivity|]); (split; [lia|]). intros y [].
           ++ exists (x :: l1), l2. (split; [reflexivity|]); (split; [assumption|]); (split; [try assumption; reflexivity|]); (split; [lia|]).
              intros y [<-|Hy] Hy'; [exact Hlt | auto].
      * destruct (IH c0 w0 (mkState g1 (S (pulls st)) (out st)) l' g' E1)
          as (c & w & Hrun & Hle & Hmax & Hsel).
        exists c, w. rewrite Hrun. cbn [gen pulls out].
        split; [outcome_eq|]. split; [exact Hle|]. split.
        -- intros y [<-|Hy] Hy'; [lia | auto].
        -- destruct Hsel as [Hsel | (l1 & l2 & -> & Hc & Hw & Hlt & Hbefore)];
             [now left | right].
           exists (x :: l1), l2. (split; [reflexivity|]); (split; [assumption|]); (split; [try assumption; reflexivity|]); (split; [lia|]).
           intros y [<-|Hy] Hy'; [lia | auto].
Qed.
End ExtremalLoops.

End MoreProperties.

(* ================================================================== *)
(** * The demonstration script *)

Lemma sequence_next_run k : forall s n,
  Z.of_nat (s + k) <= n ->
  take_gen sequence_next k (Z.of_nat s, n)
  = Some (map (fun j => PyObj (Z.of_nat j)) (seq s k), (Z.of_nat (s + k), n)).
Proof.
  induction k as [|k IH]; intros s n Hle.
  - simpl. now rewrite Nat.add_0_r.
  - cbn [take_gen sequence_next].
    destruct (Z.ltb_spec (Z.of_nat s) n) as [Hlt|Hge]; [|lia].
    replace (Z.of_nat s + 1) with (Z.of_nat (S s)) by lia.
    rewrite IH by lia. cbn [seq map].
    now replace (S s + k)%nat with (s + S k)%nat by lia.
Qed.

Lemma sequence_generator_take (n : Z) :
  take_gen sequence_next (Z.to_nat n) (sequence_generator n)
  = Some (integers (Z.to_nat n), (Z.max 0 n, n)).
Proof.
  unfold sequence_generator, integers.
  destruct (Z.le_gt_cases 0 n) as [Hn|Hn].
  - change 0 with (Z.of_nat 0) at 1.
    rewrite sequence_next_run by lia.
    do 2 f_equal. f_equal. lia.
  - replace (Z.to_nat n) with 0%nat by lia. cbn [take_gen seq map].
    do 2 f_equal. f_equal. lia.
Qed.

(** X12. [sequence_generator(n)] yields 0, 1, ..., n-1 in this order and
    is then exhausted; with [n <= 0] it yields nothing. *)
Theorem sequence_generator_yields (n : Z) :
  take_gen sequence_next (Z.to_nat n) (sequence_generator n)
  = Some (map PyObj (range n), (Z.max 0 n, n))
  /\ sequence_next (Z.max 0 n, n) = None
  /\ List.length (range n) = Z.to_nat n.
Proof.
  split; [|split].
  - rewrite sequence_generator_take. unfold integers, range.
    now rewrite map_map.
  - unfold sequence_next. destruct (Z.ltb_spec (Z.max 0 n) n); [lia | reflexivity].
  - unfold range. now rewrite length_map, length_seq.
Qed.

(** X13. The script's call, for any [0 <= n < 2^63] in the place of 100001:
    [find_counterexample(n, sleep_condition, sequence_generator(n), True)]
    returns [None] after exactly [n] pulls; the generator is then exhausted
    but no [StopIteration] is raised; the output is the heading, the bar,
    100 updates, the closing of the bar and "no concluding". *)
Theorem demo_finds_nothing (n : Z) :
  0 <= n -> n <= PY_SSIZE_T_MAX ->
  demo n (start (sequence_generator n))
  = (Return PyNone,
     mkState (n, n) (Z.to_nat n)
       (heading2_events "  Find counterexample" n "sequence_generator"
          "sleep_condition"
        ++ [BarCreate (Z.to_nat n)]
        ++ map BarUpdate (listOfBatches n)
        ++ [BarClose; Print [IStr "  Result: no concluding."]]))
  /\ sequence_next (n, n) = None.
Proof.
  intros Hn Hmax. split.
  - unfold demo.
    rewrite (find_counterexample_all_true_run sequence_next sleep_condition
               n "sequence_generator" true (start (sequence_generator n))
               (integers (Z.to_nat n)) (n, n) Hn Hmax).
    + reflexivity.
    + cbn [start gen]. rewrite sequence_generator_take. now rewrite Z.max_r.
    + apply Forall_forall. reflexivity.
  - unfold sequence_next. now rewrite Z.ltb_irrefl.
Qed.

(* ================================================================== *)
(** * The further properties at concrete inputs *)

Lemma searches_with_nonpositive_budget_minus_150 :
  -150 <= 0
  /\ list_next (A:=Z) [] = None
  /\ fst (find_counterexample list_next is_even (-150) "empty" false (start []))
     = Return PyNone
  /\ fst (count_counterexamples list_next is_even (-150) "empty" false (start []))
     = Return 0
  /\ pulls (snd (find_counterexample list_next is_even (-150) "empty" false
                   (start []))) = 0%nat.
Proof.
  split; [lia|]. split; [reflexivity|].
  destruct (searches_with_nonpositive_budget list_next is_even (-150) "empty"
              false (start []) ltac:(lia)) as [Hf Hc].
  rewrite Hf, Hc. repeat split.
Defined.

Lemma find_counterexample_result_and_message_0_9 :
  let run := find_counterexample list_next is_even 10 "integers" false
               (start (integers 10)) in
  run = (Return (PyObj 1), snd run)
  /\ PyObj 1 <> PyNone (A:=Z)
  /\ is_even (PyObj 1) = false
  /\ exists printed,
      out (snd run)
      = printed ++ [BarClose; Print [IStr "  Result: found counterexample!"];
                    Print [IStr "  -->"; IObj (PyObj 1)]].
Proof.
  intros run. split; [reflexivity|].
  destruct (find_counterexample_result_and_message list_next is_even 10
              "integers" false (start (integers 10)) (PyObj 1) (snd run)
              eq_refl) as [[H _]|H]; [discriminate H | exact H].
Defined.

Lemma fits_300 : 300 <= PY_SSIZE_T_MAX.
Proof. unfold PY_SSIZE_T_MAX. lia. Qed.

Lemma fits_100001 : 100001 <= PY_SSIZE_T_MAX.
Proof. unfold PY_SSIZE_T_MAX. lia. Qed.

Lemma count_counterexamples_compose_4_6 :
  0 <= 4 /\ 0 <= 6 /\ 4 + 6 <= PY_SSIZE_T_MAX
  /\ take_gen list_next (Z.to_nat (4 + 6)) (integers 10) = Some (integers 10, [])
  /\ fst (bind (count_counterexamples list_next is_even 4 "integers" false)
            (fun a =>
             bind (count_counterexamples list_next is_even 6 "integers" false)
               (fun b => ret (a + b)))
            (start (integers 10))) = Return 5.
Proof.
  split; [lia|]. split; [lia|]. split; [exact fits_10|].
  split; [reflexivity|].
  exact (proj1 (count_counterexamples_compose list_next is_even 4 6 "integers"
                  false (start (integers 10)) (integers 10) []
                  ltac:(lia) ltac:(lia) fits_10 eq_refl)).
Defined.

Lemma find_counterexample_resumes_0_9 :
  10 <= PY_SSIZE_T_MAX
  /\ take_gen list_next 4 (integers 10)
     = Some ([PyObj 0; PyObj 1; PyObj 2; PyObj 3], skipn 4 (integers 10))
  /\ exists printed,
      bind (find_counterexample list_next is_even 10 "integers" false)
        (fun first =>
         bind (find_counterexample list_next is_even 10 "integers" false)
           (fun second => ret (first, second)))
        (start (integers 10))
      = (Return (PyObj 1, PyObj 3),
         mkState (skipn 4 (integers 10)) 4 printed).
Proof.
  split; [exact fits_10|]. split; [reflexivity|].
  exact (find_counterexample_resumes list_next is_even 10 10 "integers" false
           (start (integers 10)) [PyObj 0] (PyObj 1) [PyObj 2] (PyObj 3)
           (skipn 4 (integers 10)) fits_10 fits_10 eq_refl
           (Forall_cons (PyObj 0) eq_refl (Forall_nil _))
           (Forall_cons (PyObj 2) eq_refl (Forall_nil _))
           eq_refl eq_refl ltac:(discriminate) ltac:(discriminate)
           ltac:(cbn; lia) ltac:(cbn; lia)).
Defined.

Lemma find_counterexample_stops_at_first_failure_short :
  300 <= PY_SSIZE_T_MAX
  /\ take_gen list_next 2 (integers 3) = Some ([PyObj 0; PyObj 1], [PyObj 2])
  /\ take_gen list_next (Z.to_nat 300) (integers 3) = None
  /\ exists i,
      (i < 100)%nat
      /\ sum (firstn i (listOfBatches 300)) <= 1
         < sum (firstn (S i) (listOfBatches 300))
      /\ fst (find_counterexample list_next is_even 300 "integers" false
                (start (integers 3))) = Return (PyObj 1)
      /\ pulls (snd (find_counterexample list_next is_even 300 "integers" false
                       (start (integers 3)))) = 2%nat.
Proof.
  split; [exact fits_300|]. split; [reflexivity|]. split; [reflexivity|].
  destruct (find_counterexample_stops_at_first_failure list_next is_even 300
              "integers" false (start (integers 3)) [PyObj 0] (PyObj 1)
              [PyObj 2] fits_300 eq_refl
              (Forall_cons (PyObj 0) eq_refl (Forall_nil _)) eq_refl
              ltac:(discriminate) ltac:(cbn; lia)) as (i & Hi & Hb & Hrun).
  exists i. rewrite Hrun. split; [exact Hi|]. split; [exact Hb|].
  split; reflexivity.
Defined.

Lemma searches_that_use_the_whole_budget_0_9 :
  0 <= 10 /\ 10 <= PY_SSIZE_T_MAX
  /\ take_gen list_next (Z.to_nat 10) (integers 10) = Some (integers 10, [])
  /\ fst (count_counterexamples list_next is_even 10 "integers" false
            (start (integers 10))) = Return 5
  /\ gen (snd (count_counterexamples list_next is_even 10 "integers" false
                 (start (integers 10)))) = []
  /\ fst (find_counterexample list_next always_true 10 "integers" false
            (start (integers 10))) = Return PyNone.
Proof.
  split; [lia|]. split; [exact fits_10|]. split; [reflexivity|].
  pose proof (proj1 (searches_that_use_the_whole_budget list_next is_even 10
                       "integers" false (start (integers 10)) (integers 10) []
                       ltac:(lia) fits_10 eq_refl)) as Hc.
  pose proof (proj2 (searches_that_use_the_whole_budget list_next always_true 10
                       "integers" false (start (integers 10)) (integers 10) []
                       ltac:(lia) fits_10 eq_refl)
                (proj2 (Forall_forall _ _) (fun _ _ => eq_refl))) as Hf.
  rewrite Hc, Hf. repeat split.
Defined.

Lemma smallest_compute_batch_loop_selects_0_5 :
  take_gen list_next 6 (integers 6) = Some (integers 6, [])
  /\ exists c w,
      smallest_compute_batch_loop list_next is_even identity 6 PyNone 100
        (start (integers 6))
      = (Return (c, w), mkState [] 6 [])
      /\ w <= 100
      /\ w <= identity (PyObj 5).
Proof.
  split; [reflexivity|].
  destruct (smallest_compute_batch_loop_selects list_next is_even identity 6
              PyNone 100 (start (integers 6)) (integers 6) [] eq_refl)
    as (c & w & Hrun & Hle & Hmin & _).
  exists c, w. split; [exact Hrun|]. split; [exact Hle|].
  apply Hmin; [cbn; tauto | reflexivity].
Defined.

Lemma greatest_compute_batch_loop_selects_0_5 :
  take_gen list_next 6 (integers 6) = Some (integers 6, [])
  /\ exists c w,
      greatest_compute_batch_loop list_next is_even identity 6 PyNone (-100)
        (start (integers 6))
      = (Return (c, w), mkState [] 6 [])
      /\ -100 <= w
      /\ identity (PyObj 5) <= w.
Proof.
  split; [reflexivity|].
  destruct (greatest_compute_batch_loop_selects list_next is_even identity 6
              PyNone (-100) (start (integers 6)) (integers 6) [] eq_refl)
    as (c & w & Hrun & Hle & Hmax & _).
  exists c, w. split; [exact Hrun|]. split; [exact Hle|].
  apply Hmax; [cbn; tauto | reflexivity].
Defined.

Lemma demo_finds_nothing_100001 :
  0 <= 100001 /\ 100001 <= PY_SSIZE_T_MAX
  /\ fst (demo 100001 (start (sequence_generator 100001))) = Return PyNone
  /\ pulls (snd (demo 100001 (start (sequence_generator 100001))))
     = Z.to_nat 100001
  /\ gen (snd (demo 100001 (start (sequence_generator 100001))))
     = (100001, 100001).
Proof.
  split; [lia|]. split; [exact fits_100001|].
  destruct (demo_finds_nothing 100001 ltac:(lia) fits_100001) as [H _].
  rewrite H. cbn [fst snd pulls gen]. repeat split.
Defined.
